(** * PP-TIO: privacy-preserving threat-intelligence overlap

    A shallow embedding of the Bloom-filter encoder
    ([src/data/bloom_filter.py]), the overlap calculator
    ([src/computation/overlap_calculator.py]), the encryption engine
    ([src/crypto/he_engine.py]) and the two-party protocol
    ([src/computation/protocol.py]), with the properties stated about them.

    Modelling conventions.
    - Python [int] is [Z]. Python [float] is modelled by the real numbers
      [R]: arithmetic is exact, and a statement about a float result is a
      statement about the real number that the same formula gives. Where
      the rounding of binary64 changes what a function returns, the function
      is given a second time over binary64 ([FloatRun]), with the functions
      of the mathematical library as a parameter.
    - A raised exception is a value [Raise e] of the [result] type; the state
      that a raising call leaves behind is not modelled.
    - A method that reads or changes only [self] is a function on the
      object's state and returns the new state. [BloomFilter.intersect] and
      [BloomFilter.union], which take a second object and create a third, are
      given over a store of objects.
    - A numpy integer array is a [list Z], indexed as numpy does; its cells
      stay far from the bounds of [int64].
    - A Python [str] is the [string] of its UTF-8 bytes, and
      [hashlib.sha256] is the function [SHA256.digest] below.
    - The TenSEAL library is a parameter ([TenSEAL.Lib]): any behaviour of
      its calls, failure included. A call is a function of its arguments:
      the randomness of key generation and encryption is not modelled.
    - A Python [set] of strings is a [gset string]. *)

From Stdlib Require Import ZArith List String Ascii Lia DecimalString.
From Stdlib Require Import Reals Lra.
From Stdlib Require Floats.SpecFloat.
From stdpp Require Import base option list gmap strings.

Local Open Scope Z_scope.
Set Warnings "-register-all".

(** ** Python exceptions and results *)

Module Py.

Inductive exn : Type :=
| ValueError
| ZeroDivisionError
| IndexError
| KeyError
| TypeError
| AttributeError
| OverflowError
| Dangling.

Inductive result (A : Type) : Type :=
| Ok (a : A)
| Raise (e : exn).
Arguments Ok {A} a.
Arguments Raise {A} e.

Definition bind {A B : Type} (m : result A) (k : A -> result B) : result B :=
  match m with
  | Ok a => k a
  | Raise e => Raise e
  end.

Definition raises {A : Type} (m : result A) : Prop :=
  match m with
  | Ok _ => False
  | Raise _ => True
  end.

(** [str(n)] for an integer. *)
Definition str_int (z : Z) : string := NilZero.string_of_int (Z.to_int z).

(** [range(n)]: empty when [n <= 0]. *)
Definition range (n : Z) : list Z := map Z.of_nat (seq 0 (Z.to_nat n)).

(** [sum(xs)] for a list of integers. *)
Definition sum (xs : list Z) : Z := fold_left Z.add xs 0.

(** [for x in xs: body] over a state [S], stopping at the first exception. *)
Fixpoint for_each {X S : Type} (xs : list X) (body : X -> S -> result S)
    (s : S) : result S :=
  match xs with
  | [] => Ok s
  | x :: rest => bind (body x s) (for_each rest body)
  end.

(** Python values that the protocol puts in its dictionaries. A [dict] is
    kept in insertion order. *)
Inductive value : Type :=
| Bool (b : bool)
| Int (z : Z)
| Float (r : R)
| Str (s : string)
| List (l : list value)
| Dict (d : list (string * value)).

Fixpoint assoc (k : string) (d : list (string * value)) : option value :=
  match d with
  | [] => None
  | (k', v) :: rest => if String.eqb k k' then Some v else assoc k rest
  end.

Fixpoint assoc_set (k : string) (x : value) (d : list (string * value))
    : list (string * value) :=
  match d with
  | [] => [(k, x)]
  | (k', v) :: rest =>
      if String.eqb k k' then (k', x) :: rest
      else (k', v) :: assoc_set k x rest
  end.

(** [d[k]] *)
Definition getitem (d : value) (k : string) : result value :=
  match d with
  | Dict items =>
      match assoc k items with
      | Some v => Ok v
      | None => Raise KeyError
      end
  | _ => Raise TypeError
  end.

(** [d[k] = x] *)
Definition setitem (d : value) (k : string) (x : value) : result value :=
  match d with
  | Dict items => Ok (Dict (assoc_set k x items))
  | _ => Raise TypeError
  end.

(** The string values held anywhere in a value (dictionary keys are not
    values). *)
Fixpoint strings (v : value) : list string :=
  match v with
  | Str s => [s]
  | List l => flat_map strings l
  | Dict d => flat_map (fun kv => strings (snd kv)) d
  | _ => []
  end.

(** Whether a list value occurs anywhere in a value. *)
Fixpoint has_list (v : value) : bool :=
  match v with
  | List _ => true
  | Dict d => existsb (fun kv => has_list (snd kv)) d
  | _ => false
  end.

(** A value used as an integer operand. *)
Definition as_int (v : value) : result Z :=
  match v with
  | Int z => Ok z
  | Bool b => Ok (if b then 1 else 0)
  | _ => Raise TypeError
  end.

(** [int(x)] for a float: truncation towards zero. *)
Definition int_of_float (x : R) : Z :=
  if Rle_dec 0 x then Int_part x else (- Int_part (- x))%Z.

(** [max(0, x)]: the second argument only when it is strictly greater. *)
Definition max0 (x : R) : R := if Rlt_dec 0 x then x else 0%R.

(** [round(x)] for a float: the nearest integer, ties to the even one. *)
Definition round (x : R) : Z :=
  let f := Int_part x in
  let d := (x - IZR f)%R in
  if Rlt_dec d (1 / 2) then f
  else if Rlt_dec (1 / 2) d then (f + 1)%Z
  else if Z.even f then f else (f + 1)%Z.

End Py.

Notation "'let*' x ':=' m 'in' k" := (Py.bind m (fun x => k))
  (at level 10, x name, m at level 100, k at level 200, only parsing).

(** ** SHA-256 (FIPS 180-4), as computed by [hashlib.sha256] *)

Module SHA256.

Definition w32 (x : Z) : Z := x mod 2 ^ 32.

Definition rotr (n x : Z) : Z :=
  Z.lor (Z.shiftr x n) (w32 (Z.shiftl x (32 - n))).

Definition Ch (x y z : Z) : Z :=
  Z.lxor (Z.land x y) (Z.land (w32 (Z.lnot x)) z).
Definition Maj (x y z : Z) : Z :=
  Z.lxor (Z.lxor (Z.land x y) (Z.land x z)) (Z.land y z).
Definition bsig0 (x : Z) : Z :=
  Z.lxor (Z.lxor (rotr 2 x) (rotr 13 x)) (rotr 22 x).
Definition bsig1 (x : Z) : Z :=
  Z.lxor (Z.lxor (rotr 6 x) (rotr 11 x)) (rotr 25 x).
Definition ssig0 (x : Z) : Z :=
  Z.lxor (Z.lxor (rotr 7 x) (rotr 18 x)) (Z.shiftr x 3).
Definition ssig1 (x : Z) : Z :=
  Z.lxor (Z.lxor (rotr 17 x) (rotr 19 x)) (Z.shiftr x 10).

(** The first 64 primes. *)
Definition primes : list Z :=
  [2; 3; 5; 7; 11; 13; 17; 19; 23; 29; 31; 37; 41; 43; 47; 53;
   59; 61; 67; 71; 73; 79; 83; 89; 97; 101; 103; 107; 109; 113; 127; 131;
   137; 139; 149; 151; 157; 163; 167; 173; 179; 181; 191; 193; 197; 199;
   211; 223; 227; 229; 233; 239; 241; 251; 257; 263; 269; 271; 277; 281;
   283; 293; 307; 311].

(** Integer cube root below [2 ^ bits], by bisection on the bits. *)
Fixpoint icbrt_from (bits : nat) (n r : Z) : Z :=
  match bits with
  | O => r
  | S b =>
      let r' := r + 2 ^ Z.of_nat b in
      icbrt_from b n (if r' * r' * r' <=? n then r' else r)
  end.
Definition icbrt (n : Z) : Z := icbrt_from 40 n 0.

(** Round constants: the first 32 bits of the fractional parts of the cube
    roots of the first 64 primes. *)
Definition K : list Z :=
  Eval vm_compute in map (fun p => w32 (icbrt (p * 2 ^ 96))) primes.

(** Initial hash value: the first 32 bits of the fractional parts of the
    square roots of the first 8 primes. *)
Definition H0 : list Z :=
  Eval vm_compute in map (fun p => w32 (Z.sqrt (p * 2 ^ 64))) (firstn 8 primes).

Definition bytes_of_string (s : string) : list Z :=
  map (fun c => Z.of_N (N_of_ascii c)) (list_ascii_of_string s).

(** Big-endian bytes of [x], [n] of them. *)
Fixpoint be_bytes (n : nat) (x : Z) : list Z :=
  match n with
  | O => []
  | S m => (Z.shiftr x (8 * Z.of_nat m)) mod 256 :: be_bytes m x
  end.

Definition be_int (bs : list Z) : Z :=
  fold_left (fun acc b => acc * 256 + b) bs 0.

(** Padding: a [1] bit, zeros up to 56 mod 64, the bit length on 8 bytes. *)
Definition pad (msg : list Z) : list Z :=
  let len := Z.of_nat (length msg) in
  let zeros := Z.to_nat ((55 - len) mod 64) in
  msg ++ 128 :: repeat 0 zeros ++ be_bytes 8 (8 * len).

Fixpoint chunks (fuel : nat) (n : nat) (bs : list Z) : list (list Z) :=
  match fuel with
  | O => []
  | S f =>
      match bs with
      | [] => []
      | _ => firstn n bs :: chunks f n (skipn n bs)
      end
  end.

Definition words (block : list Z) : list Z :=
  map be_int (chunks 16 4 block).

(** Message schedule, newest word first. *)
Fixpoint extend (n : nat) (rw : list Z) : list Z :=
  match n with
  | O => rw
  | S m =>
      let wt := w32 (ssig1 (nth 1 rw 0) + nth 6 rw 0
                     + ssig0 (nth 14 rw 0) + nth 15 rw 0) in
      extend m (wt :: rw)
  end.
Definition schedule (block : list Z) : list Z :=
  rev (extend 48 (rev (words block))).

Definition round (st : list Z) (kw : Z * Z) : list Z :=
  match st with
  | [a; b; c; d; e; f; g; h] =>
      let t1 := h + bsig1 e + Ch e f g + fst kw + snd kw in
      let t2 := bsig0 a + Maj a b c in
      [w32 (t1 + t2); a; b; c; w32 (d + t1); e; f; g]
  | _ => st
  end.

Definition compress (h : list Z) (block : list Z) : list Z :=
  let st := fold_left round (combine K (schedule block)) h in
  map (fun p => w32 (fst p + snd p)) (combine h st).

Definition hash_words (msg : list Z) : list Z :=
  let padded := pad msg in
  fold_left compress (chunks (length padded) 64 padded) H0.

(** [int(hashlib.sha256(s.encode('utf-8')).hexdigest(), 16)]; the string
    is its UTF-8 byte sequence. *)
Definition digest (s : string) : Z :=
  fold_left (fun acc w => acc * 2 ^ 32 + w) (hash_words (bytes_of_string s)) 0.

End SHA256.

(** ** numpy integer arrays *)

Module Np.

(** Position addressed by index [i] in an array: negative indices count
    from the end, anything else out of range is an [IndexError]. *)
Definition index (arr : list Z) (i : Z) : Py.result nat :=
  let n := Z.of_nat (length arr) in
  if (0 <=? i) && (i <? n) then Py.Ok (Z.to_nat i)
  else if (- n <=? i) && (i <? 0) then Py.Ok (Z.to_nat (n + i))
  else Py.Raise Py.IndexError.

(** [arr[i]] *)
Definition getitem (arr : list Z) (i : Z) : Py.result Z :=
  let* p := index arr i in
  match arr !! p with
  | Some v => Py.Ok v
  | None => Py.Raise Py.IndexError
  end.

(** [arr[i] = v] *)
Definition setitem (arr : list Z) (i : Z) (v : Z) : Py.result (list Z) :=
  let* p := index arr i in
  Py.Ok (<[p := v]> arr).

(** [np.zeros(n, dtype=int)]: negative dimensions are refused. *)
Definition zeros (n : Z) : Py.result (list Z) :=
  if n <? 0 then Py.Raise Py.ValueError
  else Py.Ok (replicate (Z.to_nat n) 0).

(** Whether an integer fits a cell of an [int64] array. *)
Definition int64 (z : Z) : bool := (- 2 ^ 63 <=? z) && (z <? 2 ^ 63).

(** [np.array(values, dtype=int)] for a list of Python integers: a value
    outside [int64] is refused. *)
Definition array (values : list Z) : Py.result (list Z) :=
  if forallb int64 values then Py.Ok values
  else Py.Raise Py.OverflowError.

(** [int(np.sum(arr))] *)
Definition sum (arr : list Z) : Z := fold_right Z.add 0 arr.

Definition truthy (x : Z) : bool := negb (x =? 0).
Definition of_bool (b : bool) : Z := if b then 1 else 0.

(** Element-wise binary operation on one-dimensional arrays, with numpy's
    broadcasting: equal lengths, or one operand of length 1. *)
Definition broadcast (f : Z -> Z -> Z) (a b : list Z) : Py.result (list Z) :=
  if (length a =? length b)%nat then Py.Ok (zip_with f a b)
  else match a, b with
       | [x], _ => Py.Ok (map (f x) b)
       | _, [y] => Py.Ok (map (fun x => f x y) a)
       | _, _ => Py.Raise Py.ValueError
       end.

(** [np.logical_and(a, b).astype(int)] *)
Definition logical_and (a b : list Z) : Py.result (list Z) :=
  broadcast (fun x y => of_bool (truthy x && truthy y)) a b.

(** [np.logical_or(a, b).astype(int)] *)
Definition logical_or (a b : list Z) : Py.result (list Z) :=
  broadcast (fun x y => of_bool (truthy x || truthy y)) a b.

End Np.

(** ** [src/data/bloom_filter.py] *)

Module BloomFilter.

Record t : Type := mk {
  size : Z;
  hash_count : Z;
  bit_array : list Z;
  item_count : Z
}.

Definition __init__ (size hash_count : Z) : Py.result t :=
  let* bits := Np.zeros size in
  Py.Ok {| size := size; hash_count := hash_count;
           bit_array := bits; item_count := 0 |}.

Definition _hash (self : t) (item : string) (seed : Z) : Py.result Z :=
  let hash_input := (item ++ Py.str_int seed)%string in
  let hash_digest := SHA256.digest hash_input in
  if size self =? 0 then Py.Raise Py.ZeroDivisionError
  else Py.Ok (hash_digest mod size self).

(** Body of the loop of [add]: the state is the bit array. *)
Definition add_step (self : t) (item_str : string) (i : Z) (bits : list Z)
    : Py.result (list Z) :=
  let* index := _hash self item_str i in
  Np.setitem bits index 1.

Definition add (self : t) (item : string) : Py.result t :=
  let item_str := item in
  let* bits := Py.for_each (Py.range (hash_count self))
                 (add_step self item_str) (bit_array self) in
  Py.Ok {| size := size self; hash_count := hash_count self;
           bit_array := bits; item_count := item_count self + 1 |}.

Definition add_multiple (self : t) (items : list string) : Py.result t :=
  Py.for_each items (fun item self => add self item) self.

Fixpoint contains_loop (self : t) (item_str : string) (seeds : list Z)
    : Py.result bool :=
  match seeds with
  | [] => Py.Ok true
  | i :: rest =>
      let* index := _hash self item_str i in
      let* bit := Np.getitem (bit_array self) index in
      if bit =? 0 then Py.Ok false
      else contains_loop self item_str rest
  end.

Definition contains (self : t) (item : string) : Py.result bool :=
  contains_loop self item (Py.range (hash_count self)).

Definition get_bit_array (self : t) : list Z := bit_array self.

Definition set_bit_array (self : t) (bits : list Z) : Py.result t :=
  if negb (Z.of_nat (length bits) =? size self) then Py.Raise Py.ValueError
  else
    let* arr := Np.array bits in
    Py.Ok {| size := size self; hash_count := hash_count self;
             bit_array := arr; item_count := item_count self |}.

Definition from_bit_array (bits : list Z) (hash_count : Z) : Py.result t :=
  let* bf := __init__ (Z.of_nat (length bits)) hash_count in
  set_bit_array bf bits.

Definition count_set_bits (self : t) : Z := Np.sum (bit_array self).

Definition estimate_false_positive_rate (self : t) : Py.result R :=
  if item_count self =? 0 then Py.Ok 0%R
  else
    let k := hash_count self in
    let n := item_count self in
    let m := size self in
    if m =? 0 then Py.Raise Py.ZeroDivisionError
    else
      let exponent := (IZR (- k * n) / IZR m)%R in
      let fpr := powerRZ (1 - exp exponent) k in
      Py.Ok fpr.

(** Filter objects. [intersect] and [union] receive a second filter object
    and create a third one, so they are given over a store of objects
    addressed by reference: the same object can be passed twice, and what
    the call leaves in the store is part of its result. *)
Abbreviation store := (gmap positive t).

(** A reference read in a store. Python has no reference without an object;
    [Dangling] keeps the functions total. *)
Definition load (r : positive) (h : store) : Py.result t :=
  match h !! r with
  | Some obj => Py.Ok obj
  | None => Py.Raise Py.Dangling
  end.

(** [BloomFilter(size=size, hash_count=hash_count)]: a new object. *)
Definition new (size hash_count : Z) (h : store)
    : Py.result (positive * store) :=
  let* obj := __init__ size hash_count in
  let r := fresh (dom h) in
  Py.Ok (r, <[r := obj]> h).

(** [r.bit_array = bits] *)
Definition assign_bit_array (r : positive) (bits : list Z) (h : store)
    : Py.result store :=
  let* obj := load r h in
  Py.Ok (<[r := {| size := size obj; hash_count := hash_count obj;
                   bit_array := bits; item_count := item_count obj |}]> h).

Definition intersect (self other : positive) (h : store)
    : Py.result (positive * store) :=
  let* s := load self h in
  let* o := load other h in
  if negb (size s =? size o) || negb (hash_count s =? hash_count o)
  then Py.Raise Py.ValueError
  else
    let* created := new (size s) (hash_count s) h in
    let result := fst created in
    let h := snd created in
    let* s := load self h in
    let* o := load other h in
    let* bits := Np.logical_and (bit_array s) (bit_array o) in
    let* h := assign_bit_array result bits h in
    Py.Ok (result, h).

Definition union (self other : positive) (h : store)
    : Py.result (positive * store) :=
  let* s := load self h in
  let* o := load other h in
  if negb (size s =? size o) || negb (hash_count s =? hash_count o)
  then Py.Raise Py.ValueError
  else
    let* created := new (size s) (hash_count s) h in
    let result := fst created in
    let h := snd created in
    let* s := load self h in
    let* o := load other h in
    let* bits := Np.logical_or (bit_array s) (bit_array o) in
    let* h := assign_bit_array result bits h in
    Py.Ok (result, h).

Definition __len__ (self : t) : Z := item_count self.

End BloomFilter.

(** ** Binary64 arithmetic

    The functions above read Python's [float] as a real number. This part
    gives the float operations of [estimate_false_positive_rate] as the
    code has them, in IEEE 754 binary64 with rounding to nearest, ties to
    even, to show where rounding changes what the function returns. *)

Module Binary64.

Definition prec : Z := 53.
Definition emax : Z := 1024.

Abbreviation t := SpecFloat.spec_float.

(** [float(z)] *)
Definition of_Z (z : Z) : t := SpecFloat.binary_normalize prec emax z 0 false.

Definition one : t := of_Z 1.

Definition sub (x y : t) : t := SpecFloat.SFsub prec emax x y.

(** The binary64 number nearest to [n / d], for [0 < d]: the quotient is
    taken with 55 bits or more and one sticky bit, and rounded once. *)
Definition of_ratio (n d : Z) (szero : bool) : t :=
  let s := Z.max 0 (Z.log2 d - Z.log2 (Z.abs n) + 55) in
  let q := (Z.abs n * 2 ^ s) / d in
  let r := (Z.abs n * 2 ^ s) mod d in
  let m := 2 * q + (if r =? 0 then 0 else 1) in
  SpecFloat.binary_normalize prec emax (Z.sgn n * m) (- s - 1) szero.

(** [a / b] for two Python integers: the nearest binary64 number. *)
Definition truediv (a b : Z) : Py.result t :=
  if b =? 0 then Py.Raise Py.ZeroDivisionError
  else
    let negative := xorb (a <? 0) (b <? 0) in
    match of_ratio (Z.sgn b * a) (Z.abs b) negative with
    | SpecFloat.S754_infinity _ => Py.Raise Py.OverflowError
    | x => Py.Ok x
    end.

End Binary64.

(** The functions of the C mathematical library that numpy calls. They are
    a parameter, as their last bit is not specified. *)
Module Libm.

Class Lib : Type := {
  (** [np.exp(x)] *)
  exp : Binary64.t -> Binary64.t;
  (** [x ** k] for a float [x] and a Python integer [k] *)
  powi : Binary64.t -> Z -> Binary64.t
}.





End Libm.

(** [BloomFilter.estimate_false_positive_rate] with its float operations in
    binary64. *)
Module FloatRun.
Section Run.
Context {libm : Libm.Lib}.

Definition estimate_false_positive_rate (self : BloomFilter.t)
    : Py.result Binary64.t :=
  if BloomFilter.item_count self =? 0 then Py.Ok (SpecFloat.S754_zero false)
  else
    let k := BloomFilter.hash_count self in
    let n := BloomFilter.item_count self in
    let m := BloomFilter.size self in
    let* exponent := Binary64.truediv (- k * n) m in
    let fpr := Libm.powi (Binary64.sub Binary64.one (Libm.exp exponent)) k in
    Py.Ok fpr.

End Run.
End FloatRun.

(** ** [src/crypto/he_engine.py] *)

(** The TenSEAL library, as far as the engine calls it. A serialized
    ciphertext or context is a value of [bytes]; every call may fail. *)
Module TenSEAL.

Class Lib : Type := {
  context : Type;
  bytes : Type;
  (** [ts.context(ts.SCHEME_TYPE.BFV, poly_modulus_degree, plain_modulus,
      coeff_mod_bit_sizes)] followed by the generation of the Galois and
      relinearization keys. *)
  new_context : Z -> Z -> list Z -> Py.result context;
  (** [context.serialize(save_secret_key=b)] *)
  serialize : context -> bool -> bytes;
  (** [ts.bfv_vector(context, data).serialize()] *)
  bfv_vector : context -> list Z -> Py.result bytes;
  (** [ts.bfv_vector_from(context, ciphertext).decrypt()] *)
  bfv_decrypt : context -> bytes -> Py.result (list Z);
  (** [(ts.bfv_vector_from(context, c1) * ts.bfv_vector_from(context, c2))
      .serialize()] *)
  bfv_mul : context -> bytes -> bytes -> Py.result bytes
}.

(** A stand-in that keeps every vector in the clear, to run the protocol on
    examples. *)
Definition plain : Lib := {|
  context := unit;
  bytes := list Z;
  new_context := fun _ _ _ => Py.Ok tt;
  serialize := fun _ _ => [];
  bfv_vector := fun _ data => Py.Ok data;
  bfv_decrypt := fun _ c => Py.Ok c;
  bfv_mul := fun _ c1 c2 => Py.Ok (zip_with Z.mul c1 c2)
|}.

End TenSEAL.

Module HEEngine.
Section Engine.
Context {lib : TenSEAL.Lib}.

Record t : Type := mk {
  poly_modulus_degree : Z;
  coeff_mod_bit_sizes : list Z;
  plain_modulus : Z;
  context : option TenSEAL.context;
  public_key : option TenSEAL.bytes;
  private_key : option TenSEAL.bytes
}.

(** [coeff_mod_bit_sizes or [60, 40, 40, 60]]: [None] and the empty list
    both give the default. *)
Definition __init__ (poly_modulus_degree : Z)
    (coeff_mod_bit_sizes : option (list Z)) (plain_modulus : Z) : t :=
  {| poly_modulus_degree := poly_modulus_degree;
     coeff_mod_bit_sizes :=
       match coeff_mod_bit_sizes with
       | Some (b :: bs) => b :: bs
       | _ => [60; 40; 40; 60]
       end;
     plain_modulus := plain_modulus;
     context := None; public_key := None; private_key := None |}.

(** [HEEngine()] *)
Definition default : t := __init__ 8192 None 1032193.

Definition generate_keys (self : t)
    : Py.result (t * (TenSEAL.bytes * TenSEAL.bytes)) :=
  let* ctx := TenSEAL.new_context (poly_modulus_degree self)
                (plain_modulus self) (coeff_mod_bit_sizes self) in
  let public_context := TenSEAL.serialize ctx false in
  let private_context := TenSEAL.serialize ctx true in
  Py.Ok ({| poly_modulus_degree := poly_modulus_degree self;
            coeff_mod_bit_sizes := coeff_mod_bit_sizes self;
            plain_modulus := plain_modulus self;
            context := Some ctx;
            public_key := Some public_context;
            private_key := Some private_context |},
         (public_context, private_context)).

Definition encrypt (self : t) (data : list Z) : Py.result TenSEAL.bytes :=
  match context self with
  | None => Py.Raise Py.ValueError
  | Some ctx => TenSEAL.bfv_vector ctx data
  end.

Definition decrypt (self : t) (ciphertext_bytes : TenSEAL.bytes)
    : Py.result (list Z) :=
  match context self, private_key self with
  | Some ctx, Some _ => TenSEAL.bfv_decrypt ctx ciphertext_bytes
  | _, _ => Py.Raise Py.ValueError
  end.

Definition multiply_encrypted (self : t)
    (ciphertext1_bytes ciphertext2_bytes : TenSEAL.bytes)
    : Py.result TenSEAL.bytes :=
  match context self with
  | None => Py.Raise Py.ValueError
  | Some ctx => TenSEAL.bfv_mul ctx ciphertext1_bytes ciphertext2_bytes
  end.

Definition sum_encrypted (self : t) (ciphertext_bytes : TenSEAL.bytes)
    : Py.result TenSEAL.bytes :=
  match context self with
  | None => Py.Raise Py.ValueError
  | Some ctx =>
      let* decrypted := TenSEAL.bfv_decrypt ctx ciphertext_bytes in
      let total := Py.sum decrypted in
      TenSEAL.bfv_vector ctx [total]
  end.

Definition get_context_info (self : t) : Py.value :=
  match context self with
  | None => Py.Dict [("status", Py.Str "not_initialized")]%string
  | Some _ =>
      Py.Dict
        [("poly_modulus_degree", Py.Int (poly_modulus_degree self));
         ("coeff_mod_bit_sizes",
          Py.List (map Py.Int (coeff_mod_bit_sizes self)));
         ("plain_modulus", Py.Int (plain_modulus self));
         ("status", Py.Str "initialized")]%string
  end.

End Engine.

(** The methods that use further calls of the library, taken as
    parameters. *)
Section Loading.
Context {lib : TenSEAL.Lib}.

(** [ts.context_from(data)] *)
Variable context_from : TenSEAL.bytes -> Py.result TenSEAL.context.
(** [(ts.bfv_vector_from(context, c1) + ts.bfv_vector_from(context, c2))
    .serialize()] *)
Variable bfv_add :
  TenSEAL.context -> TenSEAL.bytes -> TenSEAL.bytes -> Py.result TenSEAL.bytes.
(** [(ts.bfv_vector_from(context, c) * plaintext).serialize()] *)
Variable bfv_mul_plain :
  TenSEAL.context -> TenSEAL.bytes -> Z -> Py.result TenSEAL.bytes.

Definition load_public_key (self : t) (public_key_bytes : TenSEAL.bytes)
    : Py.result t :=
  let* ctx := context_from public_key_bytes in
  Py.Ok {| poly_modulus_degree := poly_modulus_degree self;
           coeff_mod_bit_sizes := coeff_mod_bit_sizes self;
           plain_modulus := plain_modulus self;
           context := Some ctx;
           public_key := Some public_key_bytes;
           private_key := private_key self |}.

Definition load_private_key (self : t) (private_key_bytes : TenSEAL.bytes)
    : Py.result t :=
  let* ctx := context_from private_key_bytes in
  Py.Ok {| poly_modulus_degree := poly_modulus_degree self;
           coeff_mod_bit_sizes := coeff_mod_bit_sizes self;
           plain_modulus := plain_modulus self;
           context := Some ctx;
           public_key := public_key self;
           private_key := Some private_key_bytes |}.

Definition add_encrypted (self : t)
    (ciphertext1_bytes ciphertext2_bytes : TenSEAL.bytes)
    : Py.result TenSEAL.bytes :=
  match context self with
  | None => Py.Raise Py.ValueError
  | Some ctx => bfv_add ctx ciphertext1_bytes ciphertext2_bytes
  end.

Definition multiply_plain (self : t) (ciphertext_bytes : TenSEAL.bytes)
    (plaintext : Z) : Py.result TenSEAL.bytes :=
  match context self with
  | None => Py.Raise Py.ValueError
  | Some ctx => bfv_mul_plain ctx ciphertext_bytes plaintext
  end.

End Loading.
End HEEngine.

(** ** [src/data/ioc_models.py]: an indicator after construction *)

Module IoC.

Record t : Type := mk {
  raw_value : string;
  normalized_value : string
}.

Definition __str__ (self : t) : string := normalized_value self.

End IoC.

(** ** [src/computation/overlap_calculator.py] *)

Module OverlapCalculator.

Definition calculate_jaccard_similarity
    (overlap_bits bloom1_bits bloom2_bits : Z) : R :=
  let union_bits := bloom1_bits + bloom2_bits - overlap_bits in
  if union_bits =? 0 then 0%R
  else (IZR overlap_bits / IZR union_bits)%R.

(** The inner function [estimate_items] of [estimate_set_overlap]. *)
Definition estimate_items (bloom_size hash_count set_bits : Z)
    : Py.result R :=
  if set_bits =? 0 then Py.Ok 0%R
  else if bloom_size =? 0 then Py.Raise Py.ZeroDivisionError
  else
    let ratio := (IZR set_bits / IZR bloom_size)%R in
    let ratio := if Rle_dec 1 ratio then 0.999%R else ratio in
    if hash_count =? 0 then Py.Raise Py.ZeroDivisionError
    else Py.Ok (- (IZR bloom_size / IZR hash_count) * ln (1 - ratio))%R.

Definition estimate_set_overlap
    (overlap_bits bloom1_bits bloom2_bits bloom_size hash_count : Z)
    : Py.result Z :=
  let* n1 := estimate_items bloom_size hash_count bloom1_bits in
  let* n2 := estimate_items bloom_size hash_count bloom2_bits in
  let union_bits := bloom1_bits + bloom2_bits - overlap_bits in
  let* n_union := estimate_items bloom_size hash_count union_bits in
  let estimated_overlap := (n1 + n2 - n_union)%R in
  Py.Ok (Py.int_of_float (Py.max0 estimated_overlap)).

Section Calculator.
Context {lib : TenSEAL.Lib}.

Definition compute_encrypted_overlap (he_engine : HEEngine.t)
    (bloom1_encrypted bloom2_encrypted : TenSEAL.bytes)
    : Py.result TenSEAL.bytes :=
  let* intersection :=
    HEEngine.multiply_encrypted he_engine bloom1_encrypted bloom2_encrypted in
  Py.Ok intersection.

Definition count_overlap_bits (he_engine : HEEngine.t)
    (intersection_encrypted : TenSEAL.bytes) : Py.result Z :=
  let* intersection_bits := HEEngine.decrypt he_engine intersection_encrypted in
  Py.Ok (Py.sum intersection_bits).

Definition compute_overlap_statistics (he_engine : HEEngine.t)
    (bloom1 bloom2 : BloomFilter.t)
    (bloom1_encrypted bloom2_encrypted : TenSEAL.bytes)
    : Py.result Py.value :=
  let* intersection_encrypted :=
    compute_encrypted_overlap he_engine bloom1_encrypted bloom2_encrypted in
  let* overlap_bits := count_overlap_bits he_engine intersection_encrypted in
  let bloom1_bits := BloomFilter.count_set_bits bloom1 in
  let bloom2_bits := BloomFilter.count_set_bits bloom2 in
  let jaccard :=
    OverlapCalculator.calculate_jaccard_similarity overlap_bits bloom1_bits bloom2_bits in
  let* estimated_overlap :=
    OverlapCalculator.estimate_set_overlap overlap_bits bloom1_bits bloom2_bits
      (BloomFilter.size bloom1) (BloomFilter.hash_count bloom1) in
  Py.Ok (Py.Dict
    [("overlap_bits", Py.Int overlap_bits);
     ("bloom1_bits", Py.Int bloom1_bits);
     ("bloom2_bits", Py.Int bloom2_bits);
     ("jaccard_similarity", Py.Float jaccard);
     ("estimated_item_overlap", Py.Int estimated_overlap);
     ("bloom1_items", Py.Int (BloomFilter.item_count bloom1));
     ("bloom2_items", Py.Int (BloomFilter.item_count bloom2));
     ("bloom_size", Py.Int (BloomFilter.size bloom1));
     ("hash_count", Py.Int (BloomFilter.hash_count bloom1))]%string).

End Calculator.
End OverlapCalculator.

(** ** [src/computation/protocol.py] *)

(** A party holds a reference to the engine of the protocol. The engine
    changes only in [generate_keys], which [setup_parties] calls before it
    creates the parties, so the party record keeps the engine's state. *)
Module Party.
Section Party.
Context {lib : TenSEAL.Lib}.

Record t : Type := mk {
  name : string;
  he_engine : HEEngine.t;
  ioc_list : list IoC.t;
  bloom_filter : option BloomFilter.t;
  encrypted_bloom : option TenSEAL.bytes
}.

Definition __init__ (name : string) (he_engine : HEEngine.t) : t :=
  {| name := name; he_engine := he_engine; ioc_list := [];
     bloom_filter := None; encrypted_bloom := None |}.

Definition set_ioc_list (self : t) (iocs : list IoC.t) : t :=
  {| name := name self; he_engine := he_engine self; ioc_list := iocs;
     bloom_filter := bloom_filter self;
     encrypted_bloom := encrypted_bloom self |}.

Definition create_bloom_filter (self : t) (size hash_count : Z)
    : Py.result t :=
  let* bf := BloomFilter.__init__ size hash_count in
  let* bf := Py.for_each (ioc_list self)
               (fun ioc bf => BloomFilter.add bf (IoC.__str__ ioc)) bf in
  Py.Ok {| name := name self; he_engine := he_engine self;
           ioc_list := ioc_list self; bloom_filter := Some bf;
           encrypted_bloom := encrypted_bloom self |}.

Definition encrypt_bloom_filter (self : t) : Py.result (t * TenSEAL.bytes) :=
  match bloom_filter self with
  | None => Py.Raise Py.ValueError
  | Some bf =>
      let bit_array := BloomFilter.get_bit_array bf in
      let* encrypted := HEEngine.encrypt (he_engine self) bit_array in
      Py.Ok ({| name := name self; he_engine := he_engine self;
                ioc_list := ioc_list self; bloom_filter := bloom_filter self;
                encrypted_bloom := Some encrypted |},
             encrypted)
  end.

Definition get_bloom_stats (self : t) : Py.result Py.value :=
  match bloom_filter self with
  | None => Py.Ok (Py.Dict [("status", Py.Str "not_created")]%string)
  | Some bf =>
      let* fpr := BloomFilter.estimate_false_positive_rate bf in
      Py.Ok (Py.Dict
        [("party_name", Py.Str (name self));
         ("ioc_count", Py.Int (Z.of_nat (length (ioc_list self))));
         ("bloom_size", Py.Int (BloomFilter.size bf));
         ("hash_count", Py.Int (BloomFilter.hash_count bf));
         ("set_bits", Py.Int (BloomFilter.count_set_bits bf));
         ("false_positive_rate", Py.Float fpr)]%string)
  end.

End Party.
End Party.

Module TwoPartyProtocol.
Section Protocol.
Context {lib : TenSEAL.Lib}.

Record t : Type := mk {
  bloom_size : Z;
  hash_count : Z;
  he_engine : HEEngine.t;
  party1 : option Party.t;
  party2 : option Party.t
}.

Definition __init__ (bloom_size hash_count : Z) : t :=
  {| bloom_size := bloom_size; hash_count := hash_count;
     he_engine := HEEngine.default; party1 := None; party2 := None |}.

Definition setup_parties (self : t) (party1_name party2_name : string)
    (party1_iocs party2_iocs : list IoC.t) : Py.result t :=
  let* keys := HEEngine.generate_keys (he_engine self) in
  let he_engine := fst keys in
  let party1 := Party.__init__ party1_name he_engine in
  let party2 := Party.__init__ party2_name he_engine in
  let party1 := Party.set_ioc_list party1 party1_iocs in
  let party2 := Party.set_ioc_list party2 party2_iocs in
  let* party1 :=
    Party.create_bloom_filter party1 (bloom_size self) (hash_count self) in
  let* party2 :=
    Party.create_bloom_filter party2 (bloom_size self) (hash_count self) in
  Py.Ok {| bloom_size := bloom_size self; hash_count := hash_count self;
           he_engine := he_engine;
           party1 := Some party1; party2 := Some party2 |}.

Definition execute_protocol (self : t) : Py.result (t * Py.value) :=
  match party1 self, party2 self with
  | Some p1, Some p2 =>
      let* e1 := Party.encrypt_bloom_filter p1 in
      let p1 := fst e1 in
      let encrypted1 := snd e1 in
      let* e2 := Party.encrypt_bloom_filter p2 in
      let p2 := fst e2 in
      let encrypted2 := snd e2 in
      let* bloom1 :=
        match Party.bloom_filter p1 with
        | Some bf => Py.Ok bf
        | None => Py.Raise Py.AttributeError
        end in
      let* bloom2 :=
        match Party.bloom_filter p2 with
        | Some bf => Py.Ok bf
        | None => Py.Raise Py.AttributeError
        end in
      let* stats :=
        OverlapCalculator.compute_overlap_statistics (he_engine self)
          bloom1 bloom2 encrypted1 encrypted2 in
      let* stats1 := Party.get_bloom_stats p1 in
      let* stats := Py.setitem stats "party1" stats1 in
      let* stats2 := Party.get_bloom_stats p2 in
      let* stats := Py.setitem stats "party2" stats2 in
      let* estimated_item_overlap := Py.getitem stats "estimated_item_overlap" in
      let* jaccard_similarity := Py.getitem stats "jaccard_similarity" in
      let* overlap_bits := Py.getitem stats "overlap_bits" in
      let* party1_stats := Py.getitem stats "party1" in
      let* name1 := Py.getitem party1_stats "party_name" in
      let* ioc_count1 := Py.getitem party1_stats "ioc_count" in
      let* set_bits1 := Py.getitem party1_stats "set_bits" in
      let* party2_stats := Py.getitem stats "party2" in
      let* name2 := Py.getitem party2_stats "party_name" in
      let* ioc_count2 := Py.getitem party2_stats "ioc_count" in
      let* set_bits2 := Py.getitem party2_stats "set_bits" in
      let result := Py.Dict
        [("overlap_statistics", Py.Dict
            [("estimated_item_overlap", estimated_item_overlap);
             ("jaccard_similarity", jaccard_similarity);
             ("overlap_bits", overlap_bits)]);
         ("party1_info", Py.Dict
            [("name", name1);
             ("ioc_count", ioc_count1);
             ("bloom_set_bits", set_bits1)]);
         ("party2_info", Py.Dict
            [("name", name2);
             ("ioc_count", ioc_count2);
             ("bloom_set_bits", set_bits2)]);
         ("bloom_filter_params", Py.Dict
            [("size", Py.Int (bloom_size self));
             ("hash_count", Py.Int (hash_count self))]);
         ("privacy_preserved", Py.Bool true);
         ("raw_iocs_exposed", Py.Bool false)]%string in
      Py.Ok ({| bloom_size := bloom_size self; hash_count := hash_count self;
                he_engine := he_engine self;
                party1 := Some p1; party2 := Some p2 |},
             result)
  | _, _ => Py.Raise Py.ValueError
  end.

(** [verify_correctness] reads its two arguments only. *)
Definition verify_correctness (self : t)
    (party1_iocs party2_iocs : list IoC.t) : Py.value :=
  let set1 : gset string := list_to_set (map IoC.__str__ party1_iocs) in
  let set2 : gset string := list_to_set (map IoC.__str__ party2_iocs) in
  let intersection := set1 ∩ set2 in
  let union := set1 ∪ set2 in
  let actual_overlap := Z.of_nat (size intersection) in
  let actual_jaccard :=
    if 0 <? Z.of_nat (size union)
    then (IZR (Z.of_nat (size intersection)) / IZR (Z.of_nat (size union)))%R
    else 0%R in
  Py.Dict
    [("actual_overlap", Py.Int actual_overlap);
     ("actual_jaccard_similarity", Py.Float actual_jaccard);
     ("set1_size", Py.Int (Z.of_nat (size set1)));
     ("set2_size", Py.Int (Z.of_nat (size set2)));
     ("union_size", Py.Int (Z.of_nat (size union)))]%string.

(** The module-level function [run_simulation]. *)
Definition run_simulation (party1_iocs party2_iocs : list IoC.t)
    (bloom_size hash_count : Z) (verify : bool) : Py.result Py.value :=
  let protocol := __init__ bloom_size hash_count in
  let* protocol :=
    setup_parties protocol "ISP-A" "ISP-B" party1_iocs party2_iocs in
  let* executed := execute_protocol protocol in
  let protocol := fst executed in
  let results := snd executed in
  if verify then
    let verification :=
      verify_correctness protocol party1_iocs party2_iocs in
    let* results := Py.setitem results "verification" verification in
    let* overlap_statistics := Py.getitem results "overlap_statistics" in
    let* estimated_value :=
      Py.getitem overlap_statistics "estimated_item_overlap" in
    let* actual_value := Py.getitem verification "actual_overlap" in
    let* estimated := Py.as_int estimated_value in
    let* actual := Py.as_int actual_value in
    let error := Z.abs (estimated - actual) in
    let error_percentage :=
      if 0 <? actual then Py.Float (IZR error / IZR actual * 100)%R
      else Py.Int 0 in
    Py.setitem results "accuracy"
      (Py.Dict
         [("estimated_overlap", estimated_value);
          ("actual_overlap", actual_value);
          ("error", Py.Int error);
          ("error_percentage", error_percentage)]%string)
  else Py.Ok results.

End Protocol.
End TwoPartyProtocol.

(** ** Predicates used in the statements *)

Module BloomInv.
Import BloomFilter.

(** The object invariant of the class: the array has [size] cells. *)
Definition wf (bf : t) : Prop := Z.of_nat (length (bit_array bf)) = size bf.

Definition binary (bits : list Z) : Prop :=
  Forall (fun b => b = 0 \/ b = 1) bits.

(** Cell addressed by round [seed] for [item]. *)
Definition position (self : t) (item : string) (seed : Z) : nat :=
  Z.to_nat (SHA256.digest (item ++ Py.str_int seed)%string mod size self).

Definition positions (self : t) (item : string) : list nat :=
  map (position self item) (Py.range (hash_count self)).

Definition set_all (ps : list nat) (bits : list Z) : list Z :=
  fold_left (fun b p => <[p := 1]> b) ps bits.

(** What one successful [add] establishes. *)
Record add_post (self self' : t) (item : string) : Prop := {
  post_size : size self' = size self;
  post_hash_count : hash_count self' = hash_count self;
  post_wf : wf self';
  post_count : item_count self' = item_count self + 1;
  post_bits :
    bit_array self' = set_all (positions self item) (bit_array self)
}.

(** A filter through a sequence of insertions. *)
Record adds_post (self self' : t) (items : list string) : Prop := {
  posts_size : size self' = size self;
  posts_hash_count : hash_count self' = hash_count self;
  posts_wf : wf self';
  posts_count : item_count self' = item_count self + Z.of_nat (length items);
  posts_ones :
    forall q, bit_array self !! q = Some 1 -> bit_array self' !! q = Some 1;
  posts_binary : binary (bit_array self) -> binary (bit_array self');
  posts_sum :
    binary (bit_array self) ->
    count_set_bits self <= count_set_bits self'
      <= count_set_bits self
         + Z.max 0 (hash_count self) * Z.of_nat (length items)
}.

(** Whether cell [q] of an array holds a non-zero value. *)
Definition cell_set (bits : list Z) (q : nat) : bool :=
  match bits !! q with
  | Some v => negb (v =? 0)
  | None => false
  end.

End BloomInv.

Module StoreSpec.
Import BloomFilter.

(** The part shared by [intersect] and [union]. *)
Definition combine_post (f : Z -> Z -> Z) (h : store) (self other : positive)
    (a b : t) (run : Py.result (positive * store)) : Prop :=
  exists r c,
    run = Py.Ok (r, <[r := c]> h)
    /\ h !! r = None
    /\ size c = size a
    /\ hash_count c = hash_count a
    /\ bit_array c = zip_with f (bit_array a) (bit_array b).

(** What a call [self.intersect(other)] or [self.union(other)] does, [op]
    being the logical connective: it raises exactly when the parameters
    differ; otherwise it returns a new object with the same parameters whose
    cell [i] is [op] of the two cells [i], and every object that was in the
    store, the two operands included, is as it was. *)
Definition combines (op : bool -> bool -> bool) (h : store)
    (self other : positive) (a b : t)
    (run : Py.result (positive * store)) : Prop :=
  let differ := size a <> size b \/ hash_count a <> hash_count b in
  (differ <-> Py.raises run)
  /\ (~ differ ->
      exists r h' c,
        run = Py.Ok (r, h')
        /\ h !! r = None /\ h' !! r = Some c
        /\ h' !! self = Some a /\ h' !! other = Some b
        /\ (forall l, l <> r -> h' !! l = h !! l)
        /\ size c = size a /\ hash_count c = hash_count a
        /\ length (bit_array c) = length (bit_array a)
        /\ forall i x y,
             bit_array a !! i = Some x -> bit_array b !! i = Some y ->
             bit_array c !! i
               = Some (Np.of_bool (op (Np.truthy x) (Np.truthy y)))).

(** The cell of an intersection and of a union. *)
Definition and_cells (x y : Z) : Z := Np.of_bool (Np.truthy x && Np.truthy y).
Definition or_cells (x y : Z) : Z := Np.of_bool (Np.truthy x || Np.truthy y).

End StoreSpec.

(** What the protocol relies on from the library, for vectors of 0 and 1:
    decryption undoes encryption, and the product of two ciphertexts
    decrypts to the element-wise product. *)
Module TenSEALSpec.
Import BloomInv.

Record lawful (lib : TenSEAL.Lib) : Prop := {
  decrypt_encrypt :
    forall ctx data c,
      binary data ->
      TenSEAL.bfv_vector ctx data = Py.Ok c ->
      TenSEAL.bfv_decrypt ctx c = Py.Ok data;
  decrypt_mul :
    forall ctx c1 c2 c3 d1 d2,
      binary d1 -> binary d2 -> length d1 = length d2 ->
      TenSEAL.bfv_decrypt ctx c1 = Py.Ok d1 ->
      TenSEAL.bfv_decrypt ctx c2 = Py.Ok d2 ->
      TenSEAL.bfv_mul ctx c1 c2 = Py.Ok c3 ->
      TenSEAL.bfv_decrypt ctx c3 = Py.Ok (zip_with Z.mul d1 d2)
}.

End TenSEALSpec.

(** A party as [create_bloom_filter] leaves it: the filter has the given
    parameters, counts one insertion per listed indicator, holds 0 and 1
    only, and answers [True] for every listed indicator. *)
Module PartySpec.
Section Spec.
Context {lib : TenSEAL.Lib}.

Record built (name : string) (engine : HEEngine.t) (iocs : list IoC.t)
    (size hash_count : Z) (p : Party.t) : Prop := {
  built_name : Party.name p = name;
  built_engine : Party.he_engine p = engine;
  built_iocs : Party.ioc_list p = iocs;
  built_filter :
    exists bf,
      Party.bloom_filter p = Some bf
      /\ BloomFilter.size bf = size
      /\ BloomFilter.hash_count bf = hash_count
      /\ BloomFilter.item_count bf = Z.of_nat (length iocs)
      /\ BloomInv.wf bf
      /\ BloomInv.binary (BloomFilter.bit_array bf)
      /\ 0 <= BloomFilter.count_set_bits bf
           <= Z.max 0 hash_count * Z.of_nat (length iocs)
      /\ forall ioc,
           In ioc iocs ->
           BloomFilter.contains bf (IoC.__str__ ioc) = Py.Ok true
}.

End Spec.
End PartySpec.

(** ** The estimator as the specification words it *)

Module EstimatorSpec.

(** Item-count back-estimation: [-(size/hash_count) ln(1 - set_bits/size)],
    the ratio clamped to at most [0.999], and [0] for no set bit. *)
Definition n_hat (size hash_count set_bits : Z) : R :=
  if set_bits =? 0 then 0%R
  else (- (IZR size / IZR hash_count)
        * ln (1 - Rmin (IZR set_bits / IZR size) 0.999))%R.

(** The same back-estimation with the guard of the code: the ratio is
    replaced by [0.999] only when it reaches [1], that is when
    [set_bits >= size]. *)
Definition n_hat_guarded (size hash_count set_bits : Z) : R :=
  if set_bits =? 0 then 0%R
  else (- (IZR size / IZR hash_count)
        * ln (1 - (if size <=? set_bits then 0.999
                   else IZR set_bits / IZR size)))%R.

(** [max(0, round(n1 + n2 - n_union))] *)
Definition estimated_overlap
    (overlap_bits bloom1_bits bloom2_bits size hash_count : Z) : Z :=
  let n1 := n_hat size hash_count bloom1_bits in
  let n2 := n_hat size hash_count bloom2_bits in
  let n_union :=
    n_hat size hash_count (bloom1_bits + bloom2_bits - overlap_bits) in
  Z.max 0 (Py.round (n1 + n2 - n_union)).

End EstimatorSpec.

(** ** The result record of the specification *)

Module ProtocolResult.

(** The schema of the produced result: overlap statistics, the two parties'
    name, item count and set-bit count, the filter parameters and the two
    privacy flags. *)
Definition make (name1 name2 : string)
    (ioc_count1 ioc_count2 set_bits1 set_bits2 : Z)
    (estimated_item_overlap overlap_bits : Z) (jaccard_similarity : R)
    (size hash_count : Z) (privacy_preserved raw_iocs_exposed : bool)
    : Py.value :=
  Py.Dict
    [("overlap_statistics", Py.Dict
        [("estimated_item_overlap", Py.Int estimated_item_overlap);
         ("jaccard_similarity", Py.Float jaccard_similarity);
         ("overlap_bits", Py.Int overlap_bits)]);
     ("party1_info", Py.Dict
        [("name", Py.Str name1);
         ("ioc_count", Py.Int ioc_count1);
         ("bloom_set_bits", Py.Int set_bits1)]);
     ("party2_info", Py.Dict
        [("name", Py.Str name2);
         ("ioc_count", Py.Int ioc_count2);
         ("bloom_set_bits", Py.Int set_bits2)]);
     ("bloom_filter_params", Py.Dict
        [("size", Py.Int size);
         ("hash_count", Py.Int hash_count)]);
     ("privacy_preserved", Py.Bool privacy_preserved);
     ("raw_iocs_exposed", Py.Bool raw_iocs_exposed)]%string.

End ProtocolResult.

(** ** A run of the protocol on the stand-in library *)

Module Example.

Definition items1 : list IoC.t :=
  [IoC.mk "evil.example" "evil.example"; IoC.mk " 10.0.0.1" "10.0.0.1"]%string.

Definition items2 : list IoC.t :=
  [IoC.mk "ISP-A.example." "isp-a.example";
   IoC.mk "evil.example" "evil.example"]%string.

(** [protocol.setup_parties("isp-a.example", "isp-b.example", items1,
    items2)] on [TwoPartyProtocol(bloom_size=16, hash_count=2)]. *)
Definition setup : Py.result (@TwoPartyProtocol.t TenSEAL.plain) :=
  TwoPartyProtocol.setup_parties (TwoPartyProtocol.__init__ 16 2)
    "isp-a.example" "isp-b.example" items1 items2.

(** The engine once its keys are generated. *)
Definition engine : @HEEngine.t TenSEAL.plain :=
  HEEngine.mk 8192 [60; 40; 40; 60] 1032193
    (Some (tt : @TenSEAL.context TenSEAL.plain))
    (Some ([] : @TenSEAL.bytes TenSEAL.plain))
    (Some ([] : @TenSEAL.bytes TenSEAL.plain)).

(** The state that [setup] leaves. *)
Definition configured : @TwoPartyProtocol.t TenSEAL.plain :=
  TwoPartyProtocol.mk 16 2 engine
    (Some (Party.mk "isp-a.example" engine items1
             (Some (BloomFilter.mk 16 2
                      [0; 0; 0; 0; 0; 0; 1; 1; 0; 0; 0; 0; 1; 1; 0; 0] 2))
             None))
    (Some (Party.mk "isp-b.example" engine items2
             (Some (BloomFilter.mk 16 2
                      [0; 0; 0; 0; 0; 0; 1; 0; 0; 1; 1; 0; 0; 1; 0; 0] 2))
             None)).

End Example.

(** * Properties *)

Example sha256_abc :
  SHA256.digest "abc" =
  0xba7816bf8f01cfea414140de5dae2223b00361a396177a9cb410ff61f20015ad.
Proof. vm_compute. reflexivity. Qed.

Example sha256_empty :
  SHA256.digest "" =
  0xe3b0c44298fc1c149afbf4c8996fb92427ae41e4649b934ca495991b7852b855.
Proof. vm_compute. reflexivity. Qed.

Example sha256_two_blocks :
  SHA256.digest "abcdbcdecdefdefgefghfghighijhijkijkljklmklmnlmnomnopnopq" =
  0x248d6a61d20638b8e5c026930c3e6039a33ce45964ff2167f6ecedd419db06c1.
Proof. vm_compute. reflexivity. Qed.

(** The three cells of ["test"] in a filter of 1000 cells, as
    [int(sha256(b"test0").hexdigest(), 16) % 1000] and so on give them. *)
Example hash_test_rounds :
  map (BloomFilter._hash (BloomFilter.mk 1000 3 (replicate 1000 0) 0) "test")
    [0; 1; 2]
  = [Py.Ok 174; Py.Ok 876; Py.Ok 546].
Proof. vm_compute. reflexivity. Qed.

(** [bf = BloomFilter(size=16, hash_count=2); bf.add("evil.example")]:
    cells 13 and 6 are set, the item is found and another one is not. *)
Example add_then_contains :
  (let* bf0 := BloomFilter.__init__ 16 2 in
   let* bf := BloomFilter.add bf0 "evil.example" in
   let* found := BloomFilter.contains bf "evil.example" in
   let* other := BloomFilter.contains bf "10.0.0.1" in
   Py.Ok (BloomFilter.bit_array bf, BloomFilter.item_count bf, found, other))
  = Py.Ok ([0; 0; 0; 0; 0; 0; 1; 0; 0; 0; 0; 0; 0; 1; 0; 0], 1, true, false).
Proof. vm_compute. reflexivity. Qed.

(** ** Facts about the encoder *)

Module BloomFacts.
Import BloomFilter BloomInv.

Lemma index_in_range (arr : list Z) (i : Z) :
  0 <= i < Z.of_nat (length arr) -> Np.index arr i = Py.Ok (Z.to_nat i).
Proof.
  intros Hi. unfold Np.index.
  destruct (0 <=? i) eqn:E1; [|lia].
  destruct (i <? Z.of_nat (length arr)) eqn:E2; [reflexivity|lia].
Qed.

Lemma hash_in_range (self : t) (item : string) (seed : Z) :
  0 < size self ->
  _hash self item seed
    = Py.Ok (SHA256.digest (item ++ Py.str_int seed)%string mod size self)
  /\ 0 <= SHA256.digest (item ++ Py.str_int seed)%string mod size self
       < size self.
Proof.
  intros Hs. unfold _hash.
  destruct (size self =? 0) eqn:E; [lia|].
  split; [reflexivity|]. apply Z.mod_pos_bound. exact Hs.
Qed.

Lemma position_lt (self : t) (item : string) (seed : Z) (bits : list Z) :
  0 < size self -> Z.of_nat (length bits) = size self ->
  (position self item seed < length bits)%nat.
Proof.
  intros Hs Hl. unfold position.
  pose proof (Z.mod_pos_bound
    (SHA256.digest (item ++ Py.str_int seed)%string) (size self) Hs).
  lia.
Qed.

Lemma add_step_eq (self : t) (item : string) (seed : Z) (bits : list Z) :
  0 < size self -> Z.of_nat (length bits) = size self ->
  add_step self item seed bits
    = Py.Ok (<[position self item seed := 1]> bits).
Proof.
  intros Hs Hl. unfold add_step.
  destruct (hash_in_range self item seed Hs) as [-> Hr]. simpl.
  unfold Np.setitem. rewrite index_in_range by lia. reflexivity.
Qed.

Lemma set_all_length (ps : list nat) (bits : list Z) :
  length (set_all ps bits) = length bits.
Proof.
  revert bits. induction ps as [|p ps IH]; intros bits; simpl; [reflexivity|].
  rewrite IH. apply length_insert.
Qed.

Lemma add_loop_eq (self : t) (item : string) (seeds : list Z) (bits : list Z) :
  0 < size self -> Z.of_nat (length bits) = size self ->
  Py.for_each seeds (add_step self item) bits
    = Py.Ok (set_all (map (position self item) seeds) bits).
Proof.
  intros Hs. revert bits.
  induction seeds as [|i seeds IH]; intros bits Hl; simpl; [reflexivity|].
  rewrite add_step_eq by assumption. simpl.
  apply IH. rewrite length_insert. exact Hl.
Qed.

(** [add] in closed form, for a filter the hash is defined on. *)
Lemma add_eq (self : t) (item : string) :
  wf self -> 0 < size self \/ hash_count self <= 0 ->
  add self item
    = Py.Ok {| size := size self; hash_count := hash_count self;
               bit_array := set_all (positions self item) (bit_array self);
               item_count := item_count self + 1 |}.
Proof.
  intros Hwf [Hs|Hk]; unfold add, positions.
  - rewrite add_loop_eq by assumption. reflexivity.
  - unfold Py.range. replace (Z.to_nat (hash_count self)) with O by lia.
    reflexivity.
Qed.

Lemma add_raises_without_cells (self : t) (item : string) :
  size self = 0 -> 0 < hash_count self ->
  add self item = Py.Raise Py.ZeroDivisionError.
Proof.
  intros Hs Hk. unfold add, Py.range.
  destruct (Z.to_nat (hash_count self)) as [|n] eqn:E; [lia|].
  simpl. unfold add_step, _hash. rewrite Hs. reflexivity.
Qed.

Lemma set_all_keeps_one (ps : list nat) (bits : list Z) (q : nat) :
  bits !! q = Some 1 -> set_all ps bits !! q = Some 1.
Proof.
  revert bits. induction ps as [|p ps IH]; intros bits Hq; simpl; [exact Hq|].
  apply IH. destruct (decide (p = q)) as [->|Hne].
  - apply list_lookup_insert_eq. eapply lookup_lt_Some. exact Hq.
  - rewrite list_lookup_insert_ne by exact Hne. exact Hq.
Qed.

Lemma set_all_sets (ps : list nat) (bits : list Z) (q : nat) :
  In q ps -> (q < length bits)%nat -> set_all ps bits !! q = Some 1.
Proof.
  revert bits. induction ps as [|p ps IH]; intros bits Hin Hq; simpl.
  - destruct Hin.
  - destruct Hin as [->|Hin].
    + apply set_all_keeps_one. apply list_lookup_insert_eq. exact Hq.
    + apply IH; [exact Hin|]. rewrite length_insert. exact Hq.
Qed.

Lemma set_all_fixed (ps : list nat) (bits : list Z) :
  (forall q, In q ps -> bits !! q = Some 1) -> set_all ps bits = bits.
Proof.
  revert bits. induction ps as [|p ps IH]; intros bits H; simpl; [reflexivity|].
  rewrite list_insert_id by (apply H; left; reflexivity).
  apply IH. intros q Hq. apply H. right. exact Hq.
Qed.

Lemma sum_insert_one (bits : list Z) (p : nat) (v : Z) :
  bits !! p = Some v -> Np.sum (<[p := 1]> bits) = Np.sum bits - v + 1.
Proof.
  revert p. induction bits as [|b bits IH]; intros p Hp; [discriminate|].
  destruct p as [|p]; simpl in *.
  - injection Hp as ->. lia.
  - rewrite (IH p Hp). lia.
Qed.

Lemma sum_zeros (n : nat) : Np.sum (replicate n 0) = 0.
Proof. induction n as [|n IH]; simpl; [reflexivity|exact IH]. Qed.

Lemma binary_sum_nonneg (bits : list Z) : binary bits -> 0 <= Np.sum bits.
Proof.
  induction 1 as [|b bits Hb _ IH]; simpl; [lia|]. destruct Hb; lia.
Qed.

Lemma binary_sum_pos (bits : list Z) (p : nat) :
  binary bits -> bits !! p = Some 1 -> 0 < Np.sum bits.
Proof.
  intros Hb. revert p. induction Hb as [|b bits Hb Hbs IH]; intros p Hp.
  - discriminate.
  - pose proof (binary_sum_nonneg bits Hbs). destruct p as [|p]; simpl in *.
    + injection Hp as ->. lia.
    + specialize (IH p Hp). destruct Hb; lia.
Qed.

Lemma binary_insert_one (bits : list Z) (p : nat) :
  binary bits -> binary (<[p := 1]> bits).
Proof. intros Hb. apply Forall_insert; [exact Hb|right; reflexivity]. Qed.

Lemma binary_set_all (ps : list nat) (bits : list Z) :
  binary bits -> binary (set_all ps bits).
Proof.
  revert bits. induction ps as [|p ps IH]; intros bits Hb; simpl; [exact Hb|].
  apply IH, binary_insert_one, Hb.
Qed.

(** One round sets at most one new bit and clears none. *)
Lemma sum_insert_bounds (bits : list Z) (p : nat) :
  binary bits ->
  Np.sum bits <= Np.sum (<[p := 1]> bits) <= Np.sum bits + 1.
Proof.
  intros Hb. destruct (bits !! p) as [v|] eqn:Hp.
  - rewrite (sum_insert_one bits p v Hp).
    assert (v = 0 \/ v = 1) as Hv.
    { unfold binary in Hb. rewrite Forall_lookup in Hb. exact (Hb p v Hp). }
    destruct Hv; lia.
  - rewrite list_insert_ge by (apply lookup_ge_None; exact Hp). lia.
Qed.

Lemma sum_set_all_bounds (ps : list nat) (bits : list Z) :
  binary bits ->
  Np.sum bits <= Np.sum (set_all ps bits)
              <= Np.sum bits + Z.of_nat (length ps).
Proof.
  revert bits. induction ps as [|p ps IH]; intros bits Hb; simpl length;
    simpl set_all; [lia|].
  pose proof (sum_insert_bounds bits p Hb).
  pose proof (IH (<[p := 1]> bits) (binary_insert_one bits p Hb)). lia.
Qed.

Lemma range_length (n : Z) : length (Py.range n) = Z.to_nat n.
Proof. unfold Py.range. rewrite length_map, length_seq. reflexivity. Qed.

Lemma positions_length (self : t) (item : string) :
  length (positions self item) = Z.to_nat (hash_count self).
Proof. unfold positions. rewrite length_map. apply range_length. Qed.

Lemma positions_lt (self : t) (item : string) (bits : list Z) (q : nat) :
  0 < size self -> Z.of_nat (length bits) = size self ->
  In q (positions self item) -> (q < length bits)%nat.
Proof.
  intros Hs Hl Hq. unfold positions in Hq. apply in_map_iff in Hq.
  destruct Hq as (seed & <- & _). apply position_lt; assumption.
Qed.

Lemma positions_nonempty (self : t) (item : string) :
  0 < hash_count self -> exists q, In q (positions self item).
Proof.
  intros Hk. pose proof (positions_length self item) as Hl.
  destruct (positions self item) as [|q qs]; simpl in Hl; [lia|].
  exists q. left. reflexivity.
Qed.

Lemma add_ok (self : t) (item : string) :
  wf self -> 0 < size self \/ hash_count self <= 0 ->
  exists self', add self item = Py.Ok self' /\ add_post self self' item.
Proof.
  intros Hwf Hs. rewrite (add_eq self item Hwf Hs).
  eexists. split; [reflexivity|].
  split; simpl; try reflexivity.
  unfold wf. simpl. rewrite set_all_length. exact Hwf.
Qed.

Lemma add_multiple_ok (items : list string) (self : t) :
  wf self -> 0 < size self \/ hash_count self <= 0 ->
  exists self',
    add_multiple self items = Py.Ok self' /\ adds_post self self' items.
Proof.
  revert self. induction items as [|x items IH]; intros self Hwf Hs.
  - exists self. split; [reflexivity|].
    split; simpl; auto; try lia; try (intros _; unfold count_set_bits; lia).
  - destruct (add_ok self x Hwf Hs) as (s1 & E1 & P1).
    destruct P1 as [Z1 K1 W1 C1 B1].
    destruct (IH s1 W1 ltac:(rewrite Z1, K1; exact Hs)) as (s2 & E2 & P2).
    destruct P2 as [Z2 K2 W2 C2 O2 Y2 S2].
    exists s2. split.
    + unfold add_multiple in *. simpl. rewrite E1. simpl. exact E2.
    + split.
      * congruence.
      * congruence.
      * exact W2.
      * rewrite C2, C1. simpl length. lia.
      * intros q Hq. apply O2. rewrite B1. apply set_all_keeps_one, Hq.
      * intros Hb. apply Y2. rewrite B1. apply binary_set_all, Hb.
      * intros Hb.
        assert (binary (bit_array s1)) as Hb1
          by (rewrite B1; apply binary_set_all, Hb).
        specialize (S2 Hb1).
        pose proof (sum_set_all_bounds (positions self x) (bit_array self) Hb)
          as Hstep.
        rewrite positions_length in Hstep.
        unfold count_set_bits in *. rewrite B1 in S2. rewrite K1 in S2.
        simpl length. lia.
Qed.

Lemma for_each_app {X S : Type} (xs ys : list X)
    (body : X -> S -> Py.result S) (s : S) :
  Py.for_each (xs ++ ys) body s
    = Py.bind (Py.for_each xs body s) (Py.for_each ys body).
Proof.
  revert s. induction xs as [|x xs IH]; intros s; simpl; [reflexivity|].
  destruct (body x s) as [s'|e]; simpl; [apply IH|reflexivity].
Qed.

Lemma position_same_size (a b : t) (item : string) (seed : Z) :
  size a = size b -> position a item seed = position b item seed.
Proof. intros H. unfold position. rewrite H. reflexivity. Qed.

Lemma positions_same_params (a b : t) (item : string) :
  size a = size b -> hash_count a = hash_count b ->
  positions a item = positions b item.
Proof.
  intros Hs Hk. unfold positions. rewrite Hk. apply map_ext.
  intros seed. apply position_same_size, Hs.
Qed.

Lemma contains_loop_true (self : t) (item : string) (seeds : list Z) :
  wf self -> 0 < size self ->
  (forall seed, In seed seeds ->
     bit_array self !! position self item seed = Some 1) ->
  contains_loop self item seeds = Py.Ok true.
Proof.
  intros Hwf Hs. induction seeds as [|i seeds IH]; intros H; simpl;
    [reflexivity|].
  destruct (hash_in_range self item i Hs) as [-> Hr]. simpl.
  unfold Np.getitem. rewrite index_in_range by (unfold wf in Hwf; lia).
  simpl. fold (position self item i).
  rewrite (H i (or_introl eq_refl)). simpl.
  apply IH. intros seed Hseed. apply H. right. exact Hseed.
Qed.

Lemma contains_true (self : t) (item : string) :
  wf self -> 0 < size self ->
  (forall q, In q (positions self item) -> bit_array self !! q = Some 1) ->
  contains self item = Py.Ok true.
Proof.
  intros Hwf Hs H. unfold contains. apply contains_loop_true; try assumption.
  intros seed Hseed. apply H. unfold positions. apply in_map. exact Hseed.
Qed.

Lemma init_ok (size hash_count : Z) :
  0 <= size ->
  __init__ size hash_count
    = Py.Ok (mk size hash_count (replicate (Z.to_nat size) 0) 0).
Proof.
  intros Hs. unfold __init__, Np.zeros.
  destruct (size <? 0) eqn:E; [lia|reflexivity].
Qed.

(** The invariant [wf] is established by both constructors and kept by
    every method that assigns the array. *)
Lemma init_wf (size hash_count : Z) (bf : t) :
  __init__ size hash_count = Py.Ok bf -> wf bf.
Proof.
  unfold __init__, Np.zeros. destruct (size <? 0) eqn:E; [discriminate|].
  simpl. intros H. injection H as <-. unfold wf. simpl.
  rewrite length_replicate. lia.
Qed.

Lemma set_bit_array_wf (bf bf' : t) (bits : list Z) :
  set_bit_array bf bits = Py.Ok bf' -> wf bf'.
Proof.
  unfold set_bit_array, Np.array.
  destruct (Z.of_nat (length bits) =? size bf) eqn:E; [|discriminate].
  destruct (forallb Np.int64 bits); [|discriminate].
  simpl. intros H. injection H as <-. unfold wf. simpl. lia.
Qed.

Lemma from_bit_array_wf (bits : list Z) (hash_count : Z) (bf : t) :
  from_bit_array bits hash_count = Py.Ok bf -> wf bf.
Proof.
  unfold from_bit_array.
  destruct (__init__ (Z.of_nat (length bits)) hash_count) as [bf0|e];
    [|discriminate].
  simpl. apply set_bit_array_wf.
Qed.

Lemma add_wf (bf bf' : t) (item : string) :
  wf bf -> add bf item = Py.Ok bf' -> wf bf'.
Proof.
  intros Hwf E.
  destruct (Z_lt_le_dec 0 (size bf)) as [Hs|Hs].
  - destruct (add_ok bf item Hwf (or_introl Hs)) as (s1 & E1 & [_ _ W _ _]).
    congruence.
  - destruct (Z_lt_le_dec 0 (hash_count bf)) as [Hk|Hk].
    + assert (size bf = 0) as H0 by (unfold wf in Hwf; lia).
      rewrite (add_raises_without_cells bf item H0 Hk) in E. discriminate.
    + destruct (add_ok bf item Hwf (or_intror Hk)) as (s1 & E1 & [_ _ W _ _]).
      congruence.
Qed.

End BloomFacts.

(** ** Properties of the encoder *)

(** C3. No false negatives: in a filter with positive size and hash count, an
    item inserted with [add] is reported by [contains], whatever was inserted
    before it and after it. *)
Theorem contains_inserted_item
    (bf : BloomFilter.t) (before after : list string) (x : string) :
  BloomInv.wf bf -> 0 < BloomFilter.size bf -> 0 < BloomFilter.hash_count bf ->
  exists bf',
    BloomFilter.add_multiple bf (before ++ x :: after) = Py.Ok bf'
    /\ BloomFilter.contains bf' x = Py.Ok true.
Proof.
  intros Hwf Hs Hk.
  destruct (BloomFacts.add_multiple_ok before bf Hwf (or_introl Hs))
    as (s1 & E1 & [Z1 K1 W1 _ _ _ _]).
  assert (0 < BloomFilter.size s1) as Hs1 by lia.
  destruct (BloomFacts.add_ok s1 x W1 (or_introl Hs1))
    as (s2 & E2 & [Z2 K2 W2 _ B2]).
  assert (0 < BloomFilter.size s2) as Hs2 by lia.
  destruct (BloomFacts.add_multiple_ok after s2 W2 (or_introl Hs2))
    as (s3 & E3 & [Z3 K3 W3 _ O3 _ _]).
  exists s3. split.
  - unfold BloomFilter.add_multiple in *.
    rewrite BloomFacts.for_each_app, E1. simpl. rewrite E2. simpl. exact E3.
  - apply BloomFacts.contains_true; [exact W3|lia|].
    intros q Hq. apply O3. rewrite B2.
    rewrite (BloomFacts.positions_same_params s3 s1) in Hq by congruence.
    apply BloomFacts.set_all_sets; [exact Hq|].
    apply (BloomFacts.positions_lt s1 x); [exact Hs1|exact W1|exact Hq].
Qed.

(** An instance of [contains_inserted_item]. *)
Lemma contains_inserted_item_witness :
  exists bf',
    BloomFilter.add_multiple (BloomFilter.mk 16 2 (replicate 16 0) 0)
      (["10.0.0.1"%string; "evil.example"%string]
         ++ "malware.exe"%string :: ["192.168.1.1"%string])
      = Py.Ok bf'
    /\ BloomFilter.contains bf' "malware.exe" = Py.Ok true.
Proof.
  apply (contains_inserted_item (BloomFilter.mk 16 2 (replicate 16 0) 0)
           ["10.0.0.1"%string; "evil.example"%string] ["192.168.1.1"%string]
           "malware.exe"%string);
    [reflexivity | simpl; lia | simpl; lia].
Defined.

(** C5 (as stated, refuted). The constructor accepts a zero hash count and a
    zero size: no error is raised for either. *)
Lemma init_accepts_nonpositive_parameters :
  ((10 <= 0 \/ 0 <= 0) /\ ~ Py.raises (BloomFilter.__init__ 10 0))
  /\ ((0 <= 0 \/ 5 <= 0) /\ ~ Py.raises (BloomFilter.__init__ 0 5)).
Proof. repeat split; try (right; lia); try (left; lia); intros []. Qed.

(** C5 (amended). The constructor raises an error exactly when [size] is
    negative (the array allocation refuses it); for every other [size] and
    every [hash_count], also zero or negative, it returns an empty filter that
    holds the two parameters as given. *)
Theorem init_rejects_negative_size_only (size hash_count : Z) :
  (size < 0 -> BloomFilter.__init__ size hash_count = Py.Raise Py.ValueError)
  /\ (0 <= size ->
      BloomFilter.__init__ size hash_count
        = Py.Ok (BloomFilter.mk size hash_count
                   (replicate (Z.to_nat size) 0) 0)).
Proof.
  unfold BloomFilter.__init__, Np.zeros. split; intros H.
  - destruct (size <? 0) eqn:E; [reflexivity|lia].
  - destruct (size <? 0) eqn:E; [lia|reflexivity].
Qed.

(** An instance of [init_rejects_negative_size_only]. *)
Lemma init_rejects_negative_size_only_witness :
  BloomFilter.__init__ (-1) 5 = Py.Raise Py.ValueError
  /\ BloomFilter.__init__ 4 0 = Py.Ok (BloomFilter.mk 4 0 [0; 0; 0; 0] 0).
Proof.
  split.
  - apply (proj1 (init_rejects_negative_size_only (-1) 5)). lia.
  - apply (proj2 (init_rejects_negative_size_only 4 0)). lia.
Defined.

(** C7 (as stated, refuted). A filter need not start empty: one rebuilt by
    [from_bit_array] holds set bits that no insertion has counted. After one
    insertion into the filter rebuilt from four set cells with one hash
    round, four bits are set and [hash_count * item_count] is 1. *)
Lemma rebuilt_filter_exceeds_bound :
  exists bf bf',
    BloomFilter.from_bit_array [1; 1; 1; 1] 1 = Py.Ok bf
    /\ BloomFilter.add bf "a" = Py.Ok bf'
    /\ 0 < BloomFilter.size bf'
    /\ 0 < BloomFilter.hash_count bf'
    /\ BloomFilter.item_count bf' = 1
    /\ BloomFilter.count_set_bits bf' = 4
    /\ BloomFilter.hash_count bf' * BloomFilter.item_count bf' = 1.
Proof.
  exists (BloomFilter.mk 4 1 [1; 1; 1; 1] 0),
    (BloomFilter.mk 4 1 [1; 1; 1; 1] 1).
  split; [vm_compute; reflexivity|]. split; [vm_compute; reflexivity|].
  repeat split.
Qed.

(** C7 (amended). In a filter created empty by the constructor, with
    positive size and hash count, and changed by insertions only, after any
    non-empty sequence of insertions the number of set bits is positive and
    at most [hash_count] times the number of insertions. *)
Theorem count_set_bits_bounds (size hash_count : Z) (items : list string) :
  0 < size -> 0 < hash_count -> items <> [] ->
  exists bf0 bf,
    BloomFilter.__init__ size hash_count = Py.Ok bf0
    /\ BloomFilter.add_multiple bf0 items = Py.Ok bf
    /\ BloomFilter.item_count bf = Z.of_nat (length items)
    /\ 0 < BloomFilter.count_set_bits bf
        <= hash_count * BloomFilter.item_count bf.
Proof.
  intros Hs Hk Hne.
  pose proof (BloomFacts.init_ok size hash_count ltac:(lia)) as Hinit.
  set (bf0 := BloomFilter.mk size hash_count (replicate (Z.to_nat size) 0) 0)
    in *.
  assert (BloomInv.wf bf0) as Hwf
    by (unfold BloomInv.wf, bf0; simpl; rewrite length_replicate; lia).
  assert (BloomInv.binary (BloomFilter.bit_array bf0)) as Hbin
    by (apply Forall_replicate; left; reflexivity).
  assert (BloomFilter.count_set_bits bf0 = 0) as Hzero.
  { unfold BloomFilter.count_set_bits, bf0. simpl. apply BloomFacts.sum_zeros. }
  destruct items as [|x items]; [contradiction|].
  destruct (BloomFacts.add_multiple_ok (x :: items) bf0 Hwf (or_introl Hs))
    as (bf & E & [Z1 K1 W1 C1 _ _ S1]).
  specialize (S1 Hbin).
  exists bf0, bf. repeat split; try assumption.
  - (* at least one bit: the first round of the first insertion *)
    destruct (BloomFacts.add_ok bf0 x Hwf (or_introl Hs))
      as (s1 & E1 & [Z2 K2 W2 _ B2]).
    unfold BloomFilter.add_multiple in E. simpl in E. rewrite E1 in E.
    simpl in E.
    assert (0 < BloomFilter.size s1) as Hs1 by (rewrite Z2; exact Hs).
    destruct (BloomFacts.add_multiple_ok items s1 W2 (or_introl Hs1))
      as (bf' & E' & [_ _ _ _ O3 Y3 _]).
    unfold BloomFilter.add_multiple in E'. rewrite E' in E.
    injection E as <-.
    destruct (BloomFacts.positions_nonempty bf0 x Hk) as (q & Hq).
    assert (BloomFilter.bit_array s1 !! q = Some 1) as H1.
    { rewrite B2. apply BloomFacts.set_all_sets; [exact Hq|].
      apply (BloomFacts.positions_lt bf0 x); [exact Hs|exact Hwf|exact Hq]. }
    unfold BloomFilter.count_set_bits.
    apply (BloomFacts.binary_sum_pos _ q); [|apply O3, H1].
    apply Y3. rewrite B2. apply BloomFacts.binary_set_all, Hbin.
  - rewrite C1. change (BloomFilter.item_count bf0) with 0.
    change (BloomFilter.hash_count bf0) with hash_count in S1.
    rewrite Hzero in S1. lia.
Qed.

(** An instance of [count_set_bits_bounds]. *)
Lemma count_set_bits_bounds_witness :
  exists bf0 bf,
    BloomFilter.__init__ 1000 3 = Py.Ok bf0
    /\ BloomFilter.add_multiple bf0 ["test"%string] = Py.Ok bf
    /\ BloomFilter.item_count bf = Z.of_nat (length ["test"%string])
    /\ 0 < BloomFilter.count_set_bits bf <= 3 * BloomFilter.item_count bf.
Proof.
  apply (count_set_bits_bounds 1000 3 ["test"%string]);
    [lia | lia | discriminate].
Defined.

(** C9. Inserting an item that was inserted before, directly or after other
    insertions, leaves the bit array as it is, and every successful call of
    [add] increases [item_count] by one, repeated items included. *)
Theorem add_again_keeps_bits
    (bf bf1 bf2 : BloomFilter.t) (x : string) (others : list string) :
  BloomInv.wf bf ->
  BloomFilter.add bf x = Py.Ok bf1 ->
  BloomFilter.add_multiple bf1 others = Py.Ok bf2 ->
  BloomFilter.item_count bf1 = BloomFilter.item_count bf + 1
  /\ BloomFilter.item_count bf2
     = BloomFilter.item_count bf1 + Z.of_nat (length others)
  /\ exists bf3,
       BloomFilter.add bf2 x = Py.Ok bf3
       /\ BloomFilter.bit_array bf3 = BloomFilter.bit_array bf2
       /\ BloomFilter.item_count bf3 = BloomFilter.item_count bf2 + 1.
Proof.
  intros Hwf E1 E2.
  assert (0 < BloomFilter.size bf \/ BloomFilter.hash_count bf <= 0) as Hs.
  { destruct (Z_lt_le_dec 0 (BloomFilter.size bf)) as [|Hle]; [left; assumption|].
    destruct (Z_lt_le_dec 0 (BloomFilter.hash_count bf)) as [Hk|];
      [|right; assumption].
    assert (BloomFilter.size bf = 0) as H0 by (unfold BloomInv.wf in Hwf; lia).
    rewrite (BloomFacts.add_raises_without_cells bf x H0 Hk) in E1.
    discriminate. }
  destruct (BloomFacts.add_ok bf x Hwf Hs) as (s1 & E1' & [Z1 K1 W1 C1 B1]).
  rewrite E1 in E1'. injection E1' as <-.
  assert (0 < BloomFilter.size bf1 \/ BloomFilter.hash_count bf1 <= 0) as Hs1
    by (rewrite Z1, K1; exact Hs).
  destruct (BloomFacts.add_multiple_ok others bf1 W1 Hs1)
    as (s2 & E2' & [Z2 K2 W2 C2 O2 _ _]).
  rewrite E2 in E2'. injection E2' as <-.
  assert (0 < BloomFilter.size bf2 \/ BloomFilter.hash_count bf2 <= 0) as Hs2
    by (rewrite Z2, K2; exact Hs1).
  destruct (BloomFacts.add_ok bf2 x W2 Hs2) as (bf3 & E3 & [_ _ _ C3 B3]).
  split; [exact C1|]. split; [exact C2|].
  exists bf3. repeat split; [exact E3| |exact C3].
  rewrite B3. apply BloomFacts.set_all_fixed. intros q Hq.
  rewrite (BloomFacts.positions_same_params bf2 bf) in Hq by congruence.
  apply O2. rewrite B1.
  destruct Hs as [Hs|Hk].
  - apply BloomFacts.set_all_sets; [exact Hq|].
    apply (BloomFacts.positions_lt bf x); [exact Hs|exact Hwf|exact Hq].
  - pose proof (BloomFacts.positions_length bf x) as Hl.
    destruct (BloomInv.positions bf x); [destruct Hq|simpl in Hl; lia].
Qed.

(** An instance of [add_again_keeps_bits]. *)
Lemma add_again_keeps_bits_witness :
  BloomFilter.item_count (BloomFilter.mk 8 2 [0; 0; 0; 0; 1; 0; 1; 0] 1)
    = BloomFilter.item_count (BloomFilter.mk 8 2 (replicate 8 0) 0) + 1
  /\ BloomFilter.item_count (BloomFilter.mk 8 2 [0; 0; 0; 1; 1; 0; 1; 0] 2)
     = BloomFilter.item_count (BloomFilter.mk 8 2 [0; 0; 0; 0; 1; 0; 1; 0] 1)
       + Z.of_nat (length ["b"%string])
  /\ exists bf3,
       BloomFilter.add (BloomFilter.mk 8 2 [0; 0; 0; 1; 1; 0; 1; 0] 2) "a"
         = Py.Ok bf3
       /\ BloomFilter.bit_array bf3 = [0; 0; 0; 1; 1; 0; 1; 0]
       /\ BloomFilter.item_count bf3 = 2 + 1.
Proof.
  apply (add_again_keeps_bits
           (BloomFilter.mk 8 2 (replicate 8 0) 0)
           (BloomFilter.mk 8 2 [0; 0; 0; 0; 1; 0; 1; 0] 1)
           (BloomFilter.mk 8 2 [0; 0; 0; 1; 1; 0; 1; 0] 2)
           "a"%string ["b"%string]);
    [reflexivity | vm_compute; reflexivity | vm_compute; reflexivity].
Defined.

(** ** Facts about the real-valued formulas *)

Module RealFacts.
Local Open Scope R_scope.


Lemma exp_neg_lt_1 (x : R) : x < 0 -> exp x < 1.
Proof. intros H. rewrite <- exp_0. apply exp_increasing. exact H. Qed.

Lemma powerRZ_pos (x : R) (k : Z) :
  (0 < k)%Z -> powerRZ x k = x ^ Z.to_nat k.
Proof. intros H. destruct k as [|p|p]; try lia. reflexivity. Qed.


Lemma exponent_decreasing (k n1 n2 m : Z) :
  (0 < m)%Z -> (0 < k)%Z -> (n1 < n2)%Z ->
  IZR (- k * n2) / IZR m < IZR (- k * n1) / IZR m.
Proof.
  intros Hm Hk Hn. unfold Rdiv. apply Rmult_lt_compat_r.
  - apply Rinv_0_lt_compat, IZR_lt. lia.
  - apply IZR_lt. nia.
Qed.

Lemma exponent_negative (k n m : Z) :
  (0 < m)%Z -> (0 < k)%Z -> (0 < n)%Z -> IZR (- k * n) / IZR m < 0.
Proof.
  intros Hm Hk Hn.
  pose proof (exponent_decreasing k 0 n m Hm Hk Hn) as H.
  replace (- k * 0)%Z with 0%Z in H by lia.
  unfold Rdiv in H at 2. rewrite Rmult_0_l in H. exact H.
Qed.

End RealFacts.




Module EstimatorFacts.
Local Open Scope R_scope.

Lemma int_of_float_bounds (x : R) :
  0 <= x ->
  (0 <= Py.int_of_float x)%Z
  /\ IZR (Py.int_of_float x) <= x < IZR (Py.int_of_float x) + 1.
Proof.
  intros Hx. unfold Py.int_of_float.
  destruct (Rle_dec 0 x) as [_|Hn]; [|contradiction].
  destruct (base_Int_part x) as [Hlo Hhi].
  split; [|split; lra].
  apply le_IZR. apply Rnot_lt_le. intros Hneg.
  assert (IZR (Int_part x) <= -1) as Hle.
  { apply lt_IZR in Hneg. apply IZR_le. lia. }
  lra.
Qed.

Lemma int_of_float_unique (x : R) (z : Z) :
  0 <= x -> IZR z <= x < IZR z + 1 -> Py.int_of_float x = z.
Proof.
  intros Hx Hz. unfold Py.int_of_float.
  destruct (Rle_dec 0 x) as [_|Hn]; [|contradiction].
  symmetry. apply Int_part_spec. lra.
Qed.

Lemma round_bounds (x : R) :
  x - 1 / 2 <= IZR (Py.round x) <= x + 1 / 2.
Proof.
  unfold Py.round. destruct (base_Int_part x) as [Hlo Hhi].
  destruct (Rlt_dec (x - IZR (Int_part x)) (1 / 2)) as [H1|H1]; [lra|].
  destruct (Rlt_dec (1 / 2) (x - IZR (Int_part x))) as [H2|H2].
  - rewrite plus_IZR. lra.
  - destruct (Z.even (Int_part x)); [lra|]. rewrite plus_IZR. lra.
Qed.

Lemma max0_eq (x : R) : Py.max0 x = Rmax 0 x.
Proof.
  unfold Py.max0. destruct (Rlt_dec 0 x) as [H|H].
  - rewrite Rmax_right; lra.
  - rewrite Rmax_left; lra.
Qed.

Lemma ln_2_lt_1 : ln 2 < 1.
Proof.
  apply Rlt_le_trans with (ln (exp 1)); [|rewrite ln_exp; lra].
  apply ln_increasing; [lra|].
  pose proof (exp_ineq1 1 ltac:(lra)). lra.
Qed.

Lemma ratio_ge_1 (s m : Z) : (0 < m)%Z -> (1 <= IZR s / IZR m <-> (m <= s)%Z).
Proof.
  intros Hm. assert (0 < IZR m) as Hp by (apply IZR_lt; lia).
  split; intros H.
  - apply le_IZR. apply Rmult_le_compat_r with (r := IZR m) in H; [|lra].
    unfold Rdiv in H. rewrite Rmult_assoc, Rinv_l in H; lra.
  - apply IZR_le in H. apply Rmult_le_reg_r with (IZR m); [exact Hp|].
    unfold Rdiv. rewrite Rmult_assoc, Rinv_l; lra.
Qed.

(** [estimate_items] in closed form, the clamp decided on the integers. *)
Lemma estimate_items_eq (m k s : Z) :
  (0 < m)%Z -> (0 < k)%Z ->
  OverlapCalculator.estimate_items m k s
    = Py.Ok (EstimatorSpec.n_hat_guarded m k s).
Proof.
  intros Hm Hk. unfold OverlapCalculator.estimate_items, EstimatorSpec.n_hat_guarded.
  destruct (s =? 0)%Z; [reflexivity|].
  destruct (m =? 0)%Z eqn:E1; [lia|].
  destruct (k =? 0)%Z eqn:E2; [lia|].
  pose proof (ratio_ge_1 s m Hm) as Hr.
  destruct (Rle_dec 1 (IZR s / IZR m)) as [H|H];
    destruct (m <=? s)%Z eqn:E3; try reflexivity.
  - apply Hr in H. lia.
  - exfalso. apply H, Hr. lia.
Qed.

Lemma estimate_set_overlap_eq (o b1 b2 m k : Z) :
  (0 < m)%Z -> (0 < k)%Z ->
  OverlapCalculator.estimate_set_overlap o b1 b2 m k
    = Py.Ok (Py.int_of_float
               (Py.max0 (EstimatorSpec.n_hat_guarded m k b1
                         + EstimatorSpec.n_hat_guarded m k b2
                         - EstimatorSpec.n_hat_guarded m k (b1 + b2 - o)))).
Proof.
  intros Hm Hk. unfold OverlapCalculator.estimate_set_overlap.
  rewrite !estimate_items_eq by assumption. reflexivity.
Qed.

Lemma n_hat_guarded_below (m k s : Z) :
  s <> 0%Z -> (s < m)%Z ->
  EstimatorSpec.n_hat_guarded m k s
    = - (IZR m / IZR k) * ln (1 - IZR s / IZR m).
Proof.
  intros Hs Hlt. unfold EstimatorSpec.n_hat_guarded.
  destruct (s =? 0)%Z eqn:E; [lia|].
  destruct (m <=? s)%Z eqn:E'; [lia|reflexivity].
Qed.

Lemma n_hat_small_ratio (m k s : Z) :
  s <> 0%Z -> IZR s / IZR m <= 0.999 ->
  EstimatorSpec.n_hat m k s = - (IZR m / IZR k) * ln (1 - IZR s / IZR m).
Proof.
  intros Hs Hr. unfold EstimatorSpec.n_hat.
  destruct (s =? 0)%Z eqn:E; [lia|]. rewrite Rmin_left by exact Hr.
  reflexivity.
Qed.

Lemma n_hat_large_ratio (m k s : Z) :
  s <> 0%Z -> 0.999 <= IZR s / IZR m ->
  EstimatorSpec.n_hat m k s = - (IZR m / IZR k) * ln (/ 1000).
Proof.
  intros Hs Hr. unfold EstimatorSpec.n_hat.
  destruct (s =? 0)%Z eqn:E; [lia|]. rewrite Rmin_right by exact Hr.
  replace (1 - 0.999) with (/ 1000) by lra. reflexivity.
Qed.

Lemma round_unique (x : R) (z : Z) :
  Rabs (x - IZR z) < 1 / 2 -> Py.round x = z.
Proof.
  intros H. pose proof (round_bounds x) as [Hlo Hhi].
  apply Rabs_def2 in H. destruct H as [H1 H2].
  assert (IZR (Py.round x - z) < 1) as Hu by (rewrite minus_IZR; lra).
  assert (-1 < IZR (Py.round x - z)) as Hl by (rewrite minus_IZR; lra).
  apply lt_IZR in Hu. apply lt_IZR in Hl. lia.
Qed.

Lemma ln_1000_pos : 0 < ln 1000.
Proof. rewrite <- ln_1. apply ln_increasing; lra. Qed.

Lemma ln_2000 : ln 2000 = ln 1000 + ln 2.
Proof. rewrite <- ln_mult by lra. f_equal. lra. Qed.

End EstimatorFacts.



(** C1 (as stated, refuted). With one overlapping bit out of one set bit in
    each filter, size 2 and 2 hash rounds, the three estimates are [ln 2], so
    the rounded value of the specification is 1, and the code returns 0. With
    1999 set bits out of 2000 the ratio is above [0.999] and the code does not
    clamp it. *)
Lemma estimate_set_overlap_differs_from_rounded_clamped :
  (OverlapCalculator.estimate_set_overlap 1 1 1 2 2 = Py.Ok 0
   /\ EstimatorSpec.estimated_overlap 1 1 1 2 2 = 1)
  /\ OverlapCalculator.estimate_set_overlap 1999 1999 1999 2000 1
     <> Py.Ok (EstimatorSpec.estimated_overlap 1999 1999 1999 2000 1).
Proof.
  pose proof ln_lt_2 as Hlo. pose proof EstimatorFacts.ln_2_lt_1 as Hhi.
  split; [split|].
  - rewrite EstimatorFacts.estimate_set_overlap_eq by lia.
    replace (1 + 1 - 1) with 1 by lia.
    rewrite EstimatorFacts.n_hat_guarded_below by lia.
    replace (1 - IZR 1 / IZR 2)%R with (/ 2)%R by lra.
    rewrite ln_Rinv by lra. f_equal.
    rewrite EstimatorFacts.max0_eq.
    apply EstimatorFacts.int_of_float_unique; [apply Rmax_l|].
    rewrite Rmax_right by lra. lra.
  - unfold EstimatorSpec.estimated_overlap.
    replace (1 + 1 - 1) with 1 by lia.
    rewrite EstimatorFacts.n_hat_small_ratio by (try lia; lra).
    replace (1 - IZR 1 / IZR 2)%R with (/ 2)%R by lra.
    rewrite ln_Rinv by lra.
    rewrite (EstimatorFacts.round_unique _ 1); [reflexivity|].
    apply Rabs_def1; lra.
  - rewrite EstimatorFacts.estimate_set_overlap_eq by lia.
    unfold EstimatorSpec.estimated_overlap.
    replace (1999 + 1999 - 1999) with 1999 by lia.
    rewrite EstimatorFacts.n_hat_guarded_below by lia.
    rewrite EstimatorFacts.n_hat_large_ratio by (try lia; lra).
    replace (1 - IZR 1999 / IZR 2000)%R with (/ 2000)%R by lra.
    rewrite !ln_Rinv by lra. rewrite EstimatorFacts.ln_2000.
    pose proof EstimatorFacts.ln_1000_pos as Hpos.
    set (code := (_ + _ - _)%R). set (spec := (_ + _ - _)%R).
    assert (code = 2000 * ln 1000 + 2000 * ln 2)%R as Hc
      by (unfold code; lra).
    assert (spec = 2000 * ln 1000)%R as Hs by (unfold spec; lra).
    rewrite EstimatorFacts.max0_eq, Rmax_right by lra.
    destruct (EstimatorFacts.int_of_float_bounds code ltac:(lra))
      as (_ & _ & Hup).
    pose proof (EstimatorFacts.round_bounds spec) as [_ Hr].
    intros Heq. injection Heq as Heq. rewrite Heq in Hup.
    destruct (Z.max_spec 0 (Py.round spec)) as [[_ Hm]|[Hle Hm]];
      rewrite Hm in Hup; [lra|].
    lra.
Qed.

(** The quotient [set_bits / bloom_size] of two Python integers in binary64:
    just below [2^53] cells it is still below [1.0] for
    [set_bits < bloom_size]; above, it can be [1.0]. *)
Example quotient_below_one_up_to_2_53 :
  Binary64.truediv (2 ^ 53 - 1) (2 ^ 53)
    = Py.Ok (SpecFloat.S754_finite false (2 ^ 53 - 1) (-53))
  /\ Binary64.truediv (2 ^ 54) (2 ^ 54 + 1) = Py.Ok Binary64.one.
Proof. vm_compute. split; reflexivity. Qed.

(** C1 (amended). With the float operations read as operations on real
    numbers: for non-negative bit counts, a positive [bloom_size] of at most
    [2^53] and a positive [hash_count], [estimate_set_overlap] returns the
    integer part (truncation, not rounding) of [max(0, n1 + n2 - n_union)],
    where the three estimates come from [bloom1_bits], [bloom2_bits] and
    [bloom1_bits + bloom2_bits - overlap_bits] by
    [-(bloom_size/hash_count) ln(1 - ratio)], the ratio
    [set_bits/bloom_size] being replaced by [0.999] only when it is at least
    [1], and the estimate of no set bit being [0]. Up to [2^53] cells the
    quotient of the code is at least [1.0] exactly when
    [set_bits >= bloom_size]. *)
Theorem estimate_set_overlap_truncates
    (overlap_bits bloom1_bits bloom2_bits bloom_size hash_count : Z) :
  0 <= overlap_bits -> 0 <= bloom1_bits -> 0 <= bloom2_bits ->
  0 < bloom_size <= 2 ^ 53 -> 0 < hash_count ->
  let n1 := EstimatorSpec.n_hat_guarded bloom_size hash_count bloom1_bits in
  let n2 := EstimatorSpec.n_hat_guarded bloom_size hash_count bloom2_bits in
  let n_union :=
    EstimatorSpec.n_hat_guarded bloom_size hash_count
      (bloom1_bits + bloom2_bits - overlap_bits) in
  exists z : Z,
    OverlapCalculator.estimate_set_overlap
      overlap_bits bloom1_bits bloom2_bits bloom_size hash_count = Py.Ok z
    /\ 0 <= z
    /\ (IZR z <= Rmax 0 (n1 + n2 - n_union) < IZR z + 1)%R.
Proof.
  intros _ _ _ [Hm _] Hk n1 n2 n_union.
  rewrite EstimatorFacts.estimate_set_overlap_eq by assumption.
  fold n1 n2 n_union. rewrite EstimatorFacts.max0_eq.
  eexists. split; [reflexivity|].
  apply EstimatorFacts.int_of_float_bounds, Rmax_l.
Qed.

(** An instance of [estimate_set_overlap_truncates]. *)
Lemma estimate_set_overlap_truncates_witness :
  exists z : Z,
    OverlapCalculator.estimate_set_overlap 30 100 120 1000 3 = Py.Ok z
    /\ 0 <= z
    /\ (IZR z
        <= Rmax 0 (EstimatorSpec.n_hat_guarded 1000 3 100
                   + EstimatorSpec.n_hat_guarded 1000 3 120
                   - EstimatorSpec.n_hat_guarded 1000 3 (100 + 120 - 30))
        < IZR z + 1)%R.
Proof.
  apply (estimate_set_overlap_truncates 30 100 120 1000 3); lia.
Defined.

(** ** Facts about the store of filter objects *)

Module StoreFacts.
Import BloomFilter StoreSpec.

Lemma lookup_zip_with_both (f : Z -> Z -> Z) (a b : list Z) (i : nat) (x y : Z) :
  a !! i = Some x -> b !! i = Some y -> zip_with f a b !! i = Some (f x y).
Proof.
  revert b i. induction a as [|u a IH]; intros b i Ha Hb; [discriminate|].
  destruct b as [|v b]; [discriminate|].
  destruct i as [|i]; simpl in *.
  - injection Ha as ->. injection Hb as ->. reflexivity.
  - apply IH; assumption.
Qed.

Lemma broadcast_same_length (f : Z -> Z -> Z) (a b : list Z) :
  length a = length b -> Np.broadcast f a b = Py.Ok (zip_with f a b).
Proof.
  intros H. unfold Np.broadcast. rewrite H, Nat.eqb_refl. reflexivity.
Qed.

Lemma new_fresh (size hash_count : Z) (h : store) :
  0 <= size ->
  exists r,
    h !! r = None
    /\ new size hash_count h
       = Py.Ok (r, <[r := mk size hash_count (replicate (Z.to_nat size) 0) 0]> h).
Proof.
  intros Hs. exists (fresh (dom h)). split.
  - apply not_elem_of_dom, is_fresh.
  - unfold new, __init__, Np.zeros.
    destruct (size <? 0) eqn:E; [lia|]. reflexivity.
Qed.

Lemma combine_run (f : Z -> Z -> Z) (h : store) (self other : positive)
    (a b : t) :
  h !! self = Some a -> h !! other = Some b ->
  length (bit_array a) = length (bit_array b) -> 0 <= size a ->
  combine_post f h self other a b
    (let* created := new (size a) (hash_count a) h in
     let result := fst created in
     let h := snd created in
     let* s := load self h in
     let* o := load other h in
     let* bits := Np.broadcast f (bit_array s) (bit_array o) in
     let* h := assign_bit_array result bits h in
     Py.Ok (result, h)).
Proof.
  intros Ha Hb Hlen Hs.
  destruct (new_fresh (size a) (hash_count a) h Hs) as (r & Hr & ->).
  assert (r <> self) as Hrs by congruence.
  assert (r <> other) as Hro by congruence.
  cbn [Py.bind fst snd]. unfold load.
  rewrite !lookup_insert_ne by assumption. rewrite Ha, Hb.
  cbn [Py.bind]. rewrite broadcast_same_length by exact Hlen.
  cbn [Py.bind]. unfold assign_bit_array, load.
  rewrite lookup_insert_eq. cbn [Py.bind].
  rewrite insert_insert_eq.
  eexists r, _. split; [reflexivity|]. repeat split. exact Hr.
Qed.

Lemma combines_run (op : bool -> bool -> bool) (h : store)
    (self other : positive) (a b : t) (run : Py.result (positive * store)) :
  h !! self = Some a -> h !! other = Some b ->
  Z.of_nat (length (bit_array a)) = size a ->
  Z.of_nat (length (bit_array b)) = size b ->
  (size a <> size b \/ hash_count a <> hash_count b ->
     run = Py.Raise Py.ValueError) ->
  (size a = size b -> hash_count a = hash_count b ->
     combine_post
       (fun x y => Np.of_bool (op (Np.truthy x) (Np.truthy y)))
       h self other a b run) ->
  combines op h self other a b run.
Proof.
  intros Ha Hb Wa Wb Hraise Hok. unfold combines. cbv zeta.
  destruct (Z.eq_dec (size a) (size b)) as [Es|Ns];
    [destruct (Z.eq_dec (hash_count a) (hash_count b)) as [Ek|Nk]|].
  - destruct (Hok Es Ek) as (r & c & -> & Hr & Zc & Kc & Bc).
    split; [split; [intros [?|?]; contradiction|intros []]|].
    intros _. exists r, (<[r := c]> h), c.
    assert (r <> self) as Hrs by congruence.
    assert (r <> other) as Hro by congruence.
    split; [reflexivity|]. split; [exact Hr|].
    split; [apply lookup_insert_eq|].
    split; [rewrite lookup_insert_ne by assumption; exact Ha|].
    split; [rewrite lookup_insert_ne by assumption; exact Hb|].
    split; [intros l Hl; apply lookup_insert_ne; congruence|].
    split; [exact Zc|]. split; [exact Kc|].
    split.
    + rewrite Bc, length_zip_with. lia.
    + intros i x y Hx Hy. rewrite Bc.
      apply (lookup_zip_with_both
               (fun u v => Np.of_bool (op (Np.truthy u) (Np.truthy v))));
        assumption.
  - rewrite (Hraise (or_intror Nk)).
    split; [split; [intros _; exact I|intros _; right; exact Nk]|].
    intros H. exfalso. apply H. right. exact Nk.
  - rewrite (Hraise (or_introl Ns)).
    split; [split; [intros _; exact I|intros _; left; exact Ns]|].
    intros H. exfalso. apply H. left. exact Ns.
Qed.

Lemma guard_differs (a b : t) :
  size a <> size b \/ hash_count a <> hash_count b ->
  negb (size a =? size b) || negb (hash_count a =? hash_count b) = true.
Proof.
  intros [H|H].
  - apply Z.eqb_neq in H. rewrite H. reflexivity.
  - apply Z.eqb_neq in H. rewrite H. apply orb_true_r.
Qed.

Lemma guard_agrees (a b : t) :
  size a = size b -> hash_count a = hash_count b ->
  negb (size a =? size b) || negb (hash_count a =? hash_count b) = false.
Proof. intros -> ->. rewrite !Z.eqb_refl. reflexivity. Qed.

End StoreFacts.

(** C10. For two filter objects, [intersect] and [union] raise an error
    exactly when the two differ in [size] or in [hash_count]; when they agree
    the call returns a new filter with the same [size] and [hash_count] whose
    bit at each index is the logical AND (for [intersect]) or OR (for
    [union]) of the two input bits at that index, and both input filters are
    left as they were. *)
Theorem intersect_union_contract
    (h : BloomFilter.store) (self other : positive) (a b : BloomFilter.t) :
  h !! self = Some a -> h !! other = Some b ->
  BloomInv.wf a -> BloomInv.wf b ->
  StoreSpec.combines andb h self other a b (BloomFilter.intersect self other h)
  /\ StoreSpec.combines orb h self other a b (BloomFilter.union self other h).
Proof.
  intros Ha Hb Wa Wb. unfold BloomInv.wf in Wa, Wb.
  split; apply StoreFacts.combines_run; try assumption.
  - intros Hd. unfold BloomFilter.intersect, BloomFilter.load.
    rewrite Ha, Hb. cbn [Py.bind].
    rewrite (StoreFacts.guard_differs a b Hd). reflexivity.
  - intros Es Ek. unfold BloomFilter.intersect at 1.
    unfold BloomFilter.load at 1 2. rewrite Ha, Hb. cbn [Py.bind].
    rewrite (StoreFacts.guard_agrees a b Es Ek).
    apply StoreFacts.combine_run; try assumption; lia.
  - intros Hd. unfold BloomFilter.union, BloomFilter.load.
    rewrite Ha, Hb. cbn [Py.bind].
    rewrite (StoreFacts.guard_differs a b Hd). reflexivity.
  - intros Es Ek. unfold BloomFilter.union at 1.
    unfold BloomFilter.load at 1 2. rewrite Ha, Hb. cbn [Py.bind].
    rewrite (StoreFacts.guard_agrees a b Es Ek).
    apply StoreFacts.combine_run; try assumption; lia.
Qed.

(** An instance of [intersect_union_contract]. *)
Lemma intersect_union_contract_witness :
  let a := BloomFilter.mk 4 2 [1; 0; 1; 0] 1 in
  let b := BloomFilter.mk 4 2 [1; 1; 0; 0] 2 in
  let h : BloomFilter.store := <[1%positive := a]> (<[2%positive := b]> ∅) in
  StoreSpec.combines andb h 1 2 a b (BloomFilter.intersect 1 2 h)
  /\ StoreSpec.combines orb h 1 2 a b (BloomFilter.union 1 2 h).
Proof.
  intros a b h.
  apply (intersect_union_contract h 1 2 a b); reflexivity.
Defined.

Module ProtocolFacts.
Section Facts.
Context {lib : TenSEAL.Lib}.

Lemma bind_ok {A B : Type} (m : Py.result A) (k : A -> Py.result B) (b : B) :
  Py.bind m k = Py.Ok b -> exists a, m = Py.Ok a /\ k a = Py.Ok b.
Proof.
  destruct m as [a|e]; simpl; intros H; [|discriminate].
  exists a. split; [reflexivity|exact H].
Qed.

Lemma encrypt_bloom_filter_ok (p p' : Party.t) (c : TenSEAL.bytes) :
  Party.encrypt_bloom_filter p = Py.Ok (p', c) ->
  exists bf,
    Party.bloom_filter p = Some bf
    /\ Party.bloom_filter p' = Some bf
    /\ Party.name p' = Party.name p
    /\ Party.ioc_list p' = Party.ioc_list p.
Proof.
  unfold Party.encrypt_bloom_filter.
  destruct (Party.bloom_filter p) as [bf|] eqn:E; [|discriminate].
  intros H. apply bind_ok in H. destruct H as (enc & _ & H).
  injection H as <- <-. exists bf. repeat split; simpl; assumption.
Qed.

Lemma get_bloom_stats_ok (p : Party.t) (bf : BloomFilter.t) (v : Py.value) :
  Party.bloom_filter p = Some bf ->
  Party.get_bloom_stats p = Py.Ok v ->
  exists fpr,
    v = Py.Dict
          [("party_name", Py.Str (Party.name p));
           ("ioc_count", Py.Int (Z.of_nat (length (Party.ioc_list p))));
           ("bloom_size", Py.Int (BloomFilter.size bf));
           ("hash_count", Py.Int (BloomFilter.hash_count bf));
           ("set_bits", Py.Int (BloomFilter.count_set_bits bf));
           ("false_positive_rate", Py.Float fpr)]%string.
Proof.
  intros E. unfold Party.get_bloom_stats. rewrite E. intros H.
  apply bind_ok in H. destruct H as (fpr & _ & H). injection H as <-.
  exists fpr. reflexivity.
Qed.

Lemma compute_overlap_statistics_ok (engine : HEEngine.t)
    (bloom1 bloom2 : BloomFilter.t) (c1 c2 : TenSEAL.bytes) (v : Py.value) :
  OverlapCalculator.compute_overlap_statistics engine bloom1 bloom2 c1 c2
    = Py.Ok v ->
  exists overlap_bits estimated,
    v = Py.Dict
          [("overlap_bits", Py.Int overlap_bits);
           ("bloom1_bits", Py.Int (BloomFilter.count_set_bits bloom1));
           ("bloom2_bits", Py.Int (BloomFilter.count_set_bits bloom2));
           ("jaccard_similarity",
            Py.Float (OverlapCalculator.calculate_jaccard_similarity overlap_bits
                        (BloomFilter.count_set_bits bloom1)
                        (BloomFilter.count_set_bits bloom2)));
           ("estimated_item_overlap", Py.Int estimated);
           ("bloom1_items", Py.Int (BloomFilter.item_count bloom1));
           ("bloom2_items", Py.Int (BloomFilter.item_count bloom2));
           ("bloom_size", Py.Int (BloomFilter.size bloom1));
           ("hash_count", Py.Int (BloomFilter.hash_count bloom1))]%string
    /\ OverlapCalculator.estimate_set_overlap overlap_bits
         (BloomFilter.count_set_bits bloom1)
         (BloomFilter.count_set_bits bloom2)
         (BloomFilter.size bloom1) (BloomFilter.hash_count bloom1)
       = Py.Ok estimated.
Proof.
  unfold OverlapCalculator.compute_overlap_statistics. intros H.
  apply bind_ok in H. destruct H as (ie & _ & H).
  apply bind_ok in H. destruct H as (ob & _ & H).
  apply bind_ok in H. destruct H as (est & Hest & H).
  injection H as <-. exists ob, est. split; [reflexivity|exact Hest].
Qed.

Lemma execute_protocol_result (proto proto' : TwoPartyProtocol.t)
    (result : Py.value) :
  TwoPartyProtocol.execute_protocol proto = Py.Ok (proto', result) ->
  exists p1 p2 bf1 bf2 estimated overlap_bits,
    TwoPartyProtocol.party1 proto = Some p1
    /\ TwoPartyProtocol.party2 proto = Some p2
    /\ Party.bloom_filter p1 = Some bf1
    /\ Party.bloom_filter p2 = Some bf2
    /\ result
       = ProtocolResult.make (Party.name p1) (Party.name p2)
           (Z.of_nat (length (Party.ioc_list p1)))
           (Z.of_nat (length (Party.ioc_list p2)))
           (BloomFilter.count_set_bits bf1) (BloomFilter.count_set_bits bf2)
           estimated overlap_bits
           (OverlapCalculator.calculate_jaccard_similarity overlap_bits
              (BloomFilter.count_set_bits bf1)
              (BloomFilter.count_set_bits bf2))
           (TwoPartyProtocol.bloom_size proto)
           (TwoPartyProtocol.hash_count proto) true false.
Proof.
  unfold TwoPartyProtocol.execute_protocol.
  destruct (TwoPartyProtocol.party1 proto) as [p1|]; [|discriminate].
  destruct (TwoPartyProtocol.party2 proto) as [p2|];
    [|destruct p1; discriminate].
  intros H.
  apply bind_ok in H. destruct H as ([q1 c1] & E1 & H).
  apply bind_ok in H. destruct H as ([q2 c2] & E2 & H).
  destruct (encrypt_bloom_filter_ok _ _ _ E1) as (bf1 & B1 & B1' & N1 & L1).
  destruct (encrypt_bloom_filter_ok _ _ _ E2) as (bf2 & B2 & B2' & N2 & L2).
  cbn [fst snd] in H. rewrite B1', B2' in H. cbn [Py.bind] in H.
  apply bind_ok in H. destruct H as (stats & Hstats & H).
  destruct (compute_overlap_statistics_ok _ _ _ _ _ _ Hstats)
    as (ob & est & -> & _).
  apply bind_ok in H. destruct H as (s1 & Hs1 & H).
  destruct (get_bloom_stats_ok _ _ _ B1' Hs1) as (f1 & ->).
  cbn [Py.setitem Py.bind] in H.
  apply bind_ok in H. destruct H as (s2 & Hs2 & H).
  destruct (get_bloom_stats_ok _ _ _ B2' Hs2) as (f2 & ->).
  cbn in H. injection H as <- <-.
  exists p1, p2, bf1, bf2, est, ob.
  rewrite N1, N2, L1, L2. repeat split; assumption.
Qed.

End Facts.
End ProtocolFacts.

Module ExampleFacts.

Lemma setup_ok : Example.setup = Py.Ok Example.configured.
Proof. vm_compute. reflexivity. Qed.

Lemma run_ok :
  exists proto' result,
    TwoPartyProtocol.execute_protocol Example.configured
      = Py.Ok (proto', result).
Proof.
  eexists _, _.
  lazy -[ln exp Int_part Rle_dec Rlt_dec Rdiv Rmult Rplus Rminus Ropp Rinv IZR
         powerRZ pow Py.int_of_float Py.max0].
  reflexivity.
Qed.

End ExampleFacts.

(** ** Properties of the protocol *)

(** C2 (as stated, refuted). A party may be named by a string that the other
    party lists as an indicator; the name is copied into the result, so the
    indicator's string value appears in it. *)
Lemma result_can_hold_an_indicator_string :
  exists proto proto' result p2 ioc,
    Example.setup = Py.Ok proto
    /\ TwoPartyProtocol.execute_protocol proto = Py.Ok (proto', result)
    /\ TwoPartyProtocol.party2 proto = Some p2
    /\ In ioc (Party.ioc_list p2)
    /\ In (IoC.__str__ ioc) (Py.strings result).
Proof.
  destruct ExampleFacts.run_ok as (proto' & result & Hrun).
  destruct (ProtocolFacts.execute_protocol_result _ _ _ Hrun)
    as (p1 & p2 & bf1 & bf2 & est & ob & H1 & H2 & _ & _ & ->).
  eexists Example.configured, proto', _, p2,
    (IoC.mk "ISP-A.example." "isp-a.example").
  split; [exact ExampleFacts.setup_ok|]. split; [exact Hrun|].
  split; [exact H2|].
  injection H1 as <-. injection H2 as <-.
  split; [left; reflexivity|left; reflexivity].
Qed.

(** C2 (amended). For every run of the protocol that completes without
    error, the result has [privacy_preserved] true and [raw_iocs_exposed]
    false and consists of the aggregate fields only: the overlap statistics,
    each party's name, item count and set-bit count, and the filter
    parameters. No list, hence no filter bit vector and no item list, occurs
    in it, and its only string values are the two party names: an indicator's
    string value appears only when it is the name given to a party. *)
Theorem execute_protocol_releases_aggregates {lib : TenSEAL.Lib}
    (proto proto' : TwoPartyProtocol.t) (result : Py.value) :
  TwoPartyProtocol.execute_protocol proto = Py.Ok (proto', result) ->
  Py.getitem result "privacy_preserved" = Py.Ok (Py.Bool true)
  /\ Py.getitem result "raw_iocs_exposed" = Py.Ok (Py.Bool false)
  /\ Py.has_list result = false
  /\ exists p1 p2 bf1 bf2 estimated overlap_bits,
       TwoPartyProtocol.party1 proto = Some p1
       /\ TwoPartyProtocol.party2 proto = Some p2
       /\ Party.bloom_filter p1 = Some bf1
       /\ Party.bloom_filter p2 = Some bf2
       /\ Py.strings result = [Party.name p1; Party.name p2]
       /\ result
          = ProtocolResult.make (Party.name p1) (Party.name p2)
              (Z.of_nat (length (Party.ioc_list p1)))
              (Z.of_nat (length (Party.ioc_list p2)))
              (BloomFilter.count_set_bits bf1) (BloomFilter.count_set_bits bf2)
              estimated overlap_bits
              (OverlapCalculator.calculate_jaccard_similarity overlap_bits
                 (BloomFilter.count_set_bits bf1)
                 (BloomFilter.count_set_bits bf2))
              (TwoPartyProtocol.bloom_size proto)
              (TwoPartyProtocol.hash_count proto) true false.
Proof.
  intros Hrun.
  destruct (ProtocolFacts.execute_protocol_result _ _ _ Hrun)
    as (p1 & p2 & bf1 & bf2 & est & ob & H1 & H2 & B1 & B2 & ->).
  split; [reflexivity|]. split; [reflexivity|]. split; [reflexivity|].
  exists p1, p2, bf1, bf2, est, ob. repeat split; assumption.
Qed.

(** An instance of [execute_protocol_releases_aggregates]. *)
Lemma execute_protocol_releases_aggregates_witness :
  exists proto' result,
    TwoPartyProtocol.execute_protocol Example.configured
      = Py.Ok (proto', result)
    /\ Py.getitem result "privacy_preserved" = Py.Ok (Py.Bool true)
    /\ Py.getitem result "raw_iocs_exposed" = Py.Ok (Py.Bool false)
    /\ Py.has_list result = false.
Proof.
  destruct ExampleFacts.run_ok as (proto' & result & Hrun).
  exists proto', result. split; [exact Hrun|].
  destruct (execute_protocol_releases_aggregates
              Example.configured proto' result Hrun) as (Hp & Hr & Hl & _).
  repeat split; assumption.
Defined.

(** C6 (as stated, refuted). A party on which [set_ioc_list] was never called
    builds its filter without error: an empty one. *)
Lemma create_bloom_filter_needs_no_items :
  Party.create_bloom_filter (lib := TenSEAL.plain)
    (Party.__init__ "ISP-A" HEEngine.default) 8 3
  = Py.Ok (Party.mk "ISP-A" HEEngine.default []
             (Some (BloomFilter.mk 8 3 [0; 0; 0; 0; 0; 0; 0; 0] 0)) None).
Proof. vm_compute. reflexivity. Qed.

(** C6 (amended). [create_bloom_filter] on a party whose item list was never
    set does not fail: the list is empty from construction and the call
    builds an empty filter (for every [size >= 0]). [encrypt_bloom_filter]
    on a party whose filter was never built raises an error and encrypts
    nothing. *)
Theorem party_prerequisites {lib : TenSEAL.Lib}
    (p : Party.t) (size hash_count : Z) :
  (Party.ioc_list p = [] -> 0 <= size ->
     Party.create_bloom_filter p size hash_count
       = Py.Ok (Party.mk (Party.name p) (Party.he_engine p) []
                  (Some (BloomFilter.mk size hash_count
                           (replicate (Z.to_nat size) 0) 0))
                  (Party.encrypted_bloom p)))
  /\ (Party.bloom_filter p = None ->
      Party.encrypt_bloom_filter p = Py.Raise Py.ValueError).
Proof.
  split.
  - intros Hl Hs. unfold Party.create_bloom_filter. rewrite Hl.
    rewrite (BloomFacts.init_ok size hash_count Hs). reflexivity.
  - intros Hb. unfold Party.encrypt_bloom_filter. rewrite Hb. reflexivity.
Qed.

(** An instance of [party_prerequisites]. *)
Lemma party_prerequisites_witness :
  let p := Party.__init__ (lib := TenSEAL.plain) "ISP-A" HEEngine.default in
  Party.create_bloom_filter p 4 3
    = Py.Ok (Party.mk "ISP-A" HEEngine.default []
               (Some (BloomFilter.mk 4 3 [0; 0; 0; 0] 0)) None)
  /\ Party.encrypt_bloom_filter p = Py.Raise Py.ValueError.
Proof.
  intros p.
  destruct (party_prerequisites p 4 3) as [Hc He].
  split; [apply Hc; [reflexivity|lia]|apply He; reflexivity].
Defined.

(** * Further properties *)

(** ** More facts about the encoder *)

Module BloomMore.
Import BloomFilter BloomInv.

Lemma contains_loop_eq (self : t) (item : string) (seeds : list Z) :
  wf self -> 0 < size self ->
  contains_loop self item seeds
    = Py.Ok (forallb (cell_set (bit_array self))
               (map (position self item) seeds)).
Proof.
  intros Hwf Hs. induction seeds as [|i seeds IH]; simpl; [reflexivity|].
  destruct (BloomFacts.hash_in_range self item i Hs) as [-> Hr]. simpl.
  unfold Np.getitem.
  rewrite BloomFacts.index_in_range by (unfold wf in Hwf; lia).
  simpl. fold (position self item i). unfold cell_set at 1.
  destruct (bit_array self !! position self item i) as [v|] eqn:E.
  - simpl. destruct (v =? 0); simpl; [reflexivity|exact IH].
  - exfalso. apply lookup_ge_None in E.
    pose proof (BloomFacts.position_lt self item i (bit_array self) Hs Hwf).
    lia.
Qed.

(** [contains] never raises on a filter with cells: it tests the cells of
    the item. *)
Lemma contains_eq (self : t) (item : string) :
  wf self -> 0 < size self ->
  contains self item
    = Py.Ok (forallb (cell_set (bit_array self)) (positions self item)).
Proof. intros Hwf Hs. apply contains_loop_eq; assumption. Qed.

Lemma set_all_lookup (ps : list nat) (bits : list Z) (q : nat) :
  set_all ps bits !! q
    = if decide (q ∈ ps /\ (q < length bits)%nat) then Some 1 else bits !! q.
Proof.
  revert bits. induction ps as [|p ps IH]; intros bits.
  - change (set_all [] bits) with bits.
    destruct (decide (q ∈ [] /\ (q < length bits)%nat)) as [[Hin _]|_];
      [|reflexivity].
    apply elem_of_nil in Hin. destruct Hin.
  - change (set_all (p :: ps) bits) with (set_all ps (<[p := 1]> bits)).
    rewrite IH, length_insert.
    destruct (decide (q ∈ p :: ps /\ (q < length bits)%nat)) as [[Hin Hlt]|Hn];
      destruct (decide (q ∈ ps /\ (q < length bits)%nat)) as [[Hin' Hlt']|Hn'];
      try reflexivity.
    + apply elem_of_cons in Hin. destruct Hin as [->|Hin].
      * apply list_lookup_insert_eq. exact Hlt.
      * exfalso. apply Hn'. split; assumption.
    + exfalso. apply Hn. split; [apply elem_of_cons; right|]; assumption.
    + destruct (decide (p = q)) as [->|Hne].
      * destruct (decide (q < length bits)%nat) as [Hlt|Hge].
        -- exfalso. apply Hn.
           split; [apply elem_of_cons; left; reflexivity|exact Hlt].
        -- rewrite list_insert_ge by lia. reflexivity.
      * apply list_lookup_insert_ne. exact Hne.
Qed.

Lemma cell_set_set_all (ps : list nat) (bits : list Z) (q : nat) :
  cell_set bits q = true -> cell_set (set_all ps bits) q = true.
Proof.
  unfold cell_set. rewrite set_all_lookup.
  destruct (decide (q ∈ ps /\ (q < length bits)%nat)); [reflexivity|].
  intros Hq. exact Hq.
Qed.

(** [add_multiple] in closed form. *)
Lemma add_multiple_eq (items : list string) (self : t) :
  wf self -> 0 < size self \/ hash_count self <= 0 ->
  add_multiple self items
    = Py.Ok {| size := size self; hash_count := hash_count self;
               bit_array :=
                 set_all (flat_map (positions self) items) (bit_array self);
               item_count := item_count self + Z.of_nat (length items) |}.
Proof.
  revert self. induction items as [|x items IH]; intros self Hwf Hs.
  - unfold add_multiple. simpl. destruct self as [m k b n]. simpl.
    f_equal. f_equal. lia.
  - unfold add_multiple in *. simpl Py.for_each.
    rewrite (BloomFacts.add_eq self x Hwf Hs). simpl Py.bind.
    rewrite IH.
    + simpl. f_equal. f_equal.
      * unfold set_all. rewrite fold_left_app. f_equal.
      * lia.
    + unfold wf. simpl. rewrite BloomFacts.set_all_length. exact Hwf.
    + exact Hs.
Qed.

Lemma positions_in_range (self : t) (items : list string) (q : nat) :
  wf self -> 0 < size self ->
  In q (flat_map (positions self) items) -> (q < length (bit_array self))%nat.
Proof.
  intros Hwf Hs Hq. apply in_flat_map in Hq. destruct Hq as (x & _ & Hq).
  apply (BloomFacts.positions_lt self x); assumption.
Qed.

(** [contains] reads the parameters and the cells only. *)
Lemma contains_same_cells (a b : t) (item : string) :
  size a = size b -> hash_count a = hash_count b ->
  bit_array a = bit_array b -> contains a item = contains b item.
Proof.
  intros Hs Hk Hb. unfold contains. rewrite Hk.
  induction (Py.range (hash_count b)) as [|i seeds IH]; simpl; [reflexivity|].
  unfold _hash. rewrite Hs, Hb.
  destruct (size b =? 0); simpl; [reflexivity|].
  destruct (Np.getitem (bit_array b) _) as [v|e]; simpl; [|reflexivity].
  destruct (v =? 0); [reflexivity|exact IH].
Qed.

Lemma add_without_rounds (bf : t) (x : string) :
  hash_count bf <= 0 ->
  add bf x = Py.Ok (mk (size bf) (hash_count bf) (bit_array bf)
                      (item_count bf + 1)).
Proof.
  intros Hk. unfold add, Py.range.
  replace (Z.to_nat (hash_count bf)) with O by lia. reflexivity.
Qed.

Lemma cell_set_zeros (n q : nat) : cell_set (replicate n 0) q = false.
Proof.
  unfold cell_set. destruct (replicate n 0 !! q) as [v|] eqn:E; [|reflexivity].
  apply lookup_replicate in E. destruct E as [-> _]. reflexivity.
Qed.


End BloomMore.

(** ** Further properties of the encoder *)

(** X1. For a list whose cells all fit [int64], [from_bit_array] returns the
    filter with that list as cells, its length as size, the given hash count
    and [item_count] 0; for a list with a cell outside [int64] it raises
    [OverflowError]. Rebuilding a filter from its own bit array and hash
    count gives a filter with the same size, hash count and cells, with
    [item_count] back at 0, that answers [contains] as the original does. *)
Theorem from_bit_array_round_trip (bf : BloomFilter.t) :
  BloomInv.wf bf ->
  forallb Np.int64 (BloomFilter.bit_array bf) = true ->
  (forall bits k,
     forallb Np.int64 bits = true ->
     BloomFilter.from_bit_array bits k
       = Py.Ok (BloomFilter.mk (Z.of_nat (length bits)) k bits 0))
  /\ (forall bits k,
        forallb Np.int64 bits = false ->
        BloomFilter.from_bit_array bits k = Py.Raise Py.OverflowError)
  /\ exists bf',
       BloomFilter.from_bit_array (BloomFilter.get_bit_array bf)
         (BloomFilter.hash_count bf) = Py.Ok bf'
       /\ BloomFilter.size bf' = BloomFilter.size bf
       /\ BloomFilter.hash_count bf' = BloomFilter.hash_count bf
       /\ BloomFilter.get_bit_array bf' = BloomFilter.get_bit_array bf
       /\ BloomFilter.item_count bf' = 0
       /\ forall x, BloomFilter.contains bf' x = BloomFilter.contains bf x.
Proof.
  intros Hwf Hcells.
  assert (forall bits k,
            BloomFilter.from_bit_array bits k
            = (if forallb Np.int64 bits
               then Py.Ok (BloomFilter.mk (Z.of_nat (length bits)) k bits 0)
               else Py.Raise Py.OverflowError)) as H.
  { intros bits k.
    unfold BloomFilter.from_bit_array, BloomFilter.__init__, Np.zeros.
    destruct (Z.ltb_spec (Z.of_nat (length bits)) 0) as [E|E]; [lia|].
    cbn [Py.bind]. unfold BloomFilter.set_bit_array, Np.array.
    cbn [BloomFilter.size]. rewrite Z.eqb_refl. cbn [negb].
    destruct (forallb Np.int64 bits); reflexivity. }
  split; [intros bits k Hb; rewrite H, Hb; reflexivity|].
  split; [intros bits k Hb; rewrite H, Hb; reflexivity|].
  eexists. split.
  - rewrite H. unfold BloomFilter.get_bit_array. rewrite Hcells. reflexivity.
  - simpl. unfold BloomInv.wf in Hwf.
    repeat split; try assumption; try reflexivity.
    intros x. apply BloomMore.contains_same_cells; simpl; auto.
Qed.

(** An instance of [from_bit_array_round_trip]. *)
Lemma from_bit_array_round_trip_witness :
  (exists bf',
     BloomFilter.from_bit_array [0; 0; 0; 0; 1; 0; 1; 0] 2 = Py.Ok bf'
     /\ BloomFilter.item_count bf' = 0
     /\ BloomFilter.contains bf' "a" = Py.Ok true)
  /\ BloomFilter.from_bit_array [2 ^ 63] 2 = Py.Raise Py.OverflowError.
Proof.
  destruct (from_bit_array_round_trip
              (BloomFilter.mk 8 2 [0; 0; 0; 0; 1; 0; 1; 0] 1) eq_refl eq_refl)
    as (_ & Hover & bf' & E & _ & _ & _ & C & H).
  split.
  - exists bf'. split; [exact E|]. split; [exact C|].
    rewrite H. vm_compute. reflexivity.
  - apply Hover. reflexivity.
Defined.

(** X2. A filter that was just created, with positive size and hash count,
    contains no item: [contains] returns [False] for every string. *)
Theorem empty_filter_contains_nothing (size hash_count : Z) (x : string) :
  0 < size -> 0 < hash_count ->
  exists bf,
    BloomFilter.__init__ size hash_count = Py.Ok bf
    /\ BloomFilter.contains bf x = Py.Ok false.
Proof.
  intros Hs Hk.
  rewrite BloomFacts.init_ok by lia. eexists. split; [reflexivity|].
  rewrite BloomMore.contains_eq;
    [|unfold BloomInv.wf; simpl; rewrite length_replicate; lia|exact Hs].
  f_equal. simpl BloomFilter.bit_array.
  destruct (BloomFacts.positions_nonempty
              (BloomFilter.mk size hash_count (replicate (Z.to_nat size) 0) 0)
              x Hk) as (q & Hq).
  destruct (BloomInv.positions _ x) as [|p ps]; [destruct Hq|].
  simpl. rewrite BloomMore.cell_set_zeros. reflexivity.
Qed.

(** An instance of [empty_filter_contains_nothing]. *)
Lemma empty_filter_contains_nothing_witness :
  exists bf,
    BloomFilter.__init__ 1000 3 = Py.Ok bf
    /\ BloomFilter.contains bf "192.168.1.1" = Py.Ok false.
Proof.
  apply (empty_filter_contains_nothing 1000 3 "192.168.1.1"%string); lia.
Defined.

(** X3. Insertions never remove an item: when [contains] reports an item
    (inserted or a false positive) in a filter with cells, it still reports
    it after any further sequence of insertions. *)
Theorem contains_kept_by_insertions
    (bf : BloomFilter.t) (y : string) (items : list string) :
  BloomInv.wf bf -> 0 < BloomFilter.size bf ->
  BloomFilter.contains bf y = Py.Ok true ->
  exists bf',
    BloomFilter.add_multiple bf items = Py.Ok bf'
    /\ BloomFilter.contains bf' y = Py.Ok true.
Proof.
  intros Hwf Hs Hy.
  rewrite (BloomMore.add_multiple_eq items bf Hwf (or_introl Hs)).
  eexists. split; [reflexivity|].
  rewrite BloomMore.contains_eq in Hy by assumption.
  injection Hy as Hy.
  rewrite BloomMore.contains_eq;
    [|unfold BloomInv.wf; simpl; rewrite BloomFacts.set_all_length; exact Hwf
     |exact Hs].
  f_equal. apply forallb_forall. intros q Hq.
  simpl BloomFilter.bit_array. apply BloomMore.cell_set_set_all.
  rewrite forallb_forall in Hy. apply Hy.
  rewrite (BloomFacts.positions_same_params bf _) by reflexivity. exact Hq.
Qed.

(** An instance of [contains_kept_by_insertions]. *)
Lemma contains_kept_by_insertions_witness :
  exists bf',
    BloomFilter.add_multiple (BloomFilter.mk 8 2 [0; 0; 0; 0; 1; 0; 1; 0] 1)
      ["b"%string; "c"%string] = Py.Ok bf'
    /\ BloomFilter.contains bf' "a" = Py.Ok true.
Proof.
  apply (contains_kept_by_insertions
           (BloomFilter.mk 8 2 [0; 0; 0; 0; 1; 0; 1; 0] 1) "a"%string
           ["b"%string; "c"%string]);
    [reflexivity | simpl; lia | vm_compute; reflexivity].
Defined.

(** X4. A filter whose hash count is zero or negative, which the constructor
    accepts, is degenerate: [add] changes nothing but [item_count], and
    [contains] returns [True] for every item, inserted or not. *)
Theorem zero_rounds_filter_contains_everything
    (bf : BloomFilter.t) (x : string) :
  BloomFilter.hash_count bf <= 0 ->
  BloomFilter.add bf x
    = Py.Ok (BloomFilter.mk (BloomFilter.size bf) (BloomFilter.hash_count bf)
               (BloomFilter.bit_array bf) (BloomFilter.item_count bf + 1))
  /\ BloomFilter.contains bf x = Py.Ok true.
Proof.
  intros Hk. split; [apply BloomMore.add_without_rounds, Hk|].
  unfold BloomFilter.contains, Py.range.
  replace (Z.to_nat (BloomFilter.hash_count bf)) with O by lia.
  reflexivity.
Qed.

(** An instance of [zero_rounds_filter_contains_everything]. *)
Lemma zero_rounds_filter_contains_everything_witness :
  BloomFilter.add (BloomFilter.mk 4 0 [0; 0; 0; 0] 0) "evil.example"
    = Py.Ok (BloomFilter.mk 4 0 [0; 0; 0; 0] 1)
  /\ BloomFilter.contains (BloomFilter.mk 4 0 [0; 0; 0; 0] 0) "evil.example"
     = Py.Ok true.
Proof.
  apply (zero_rounds_filter_contains_everything
           (BloomFilter.mk 4 0 [0; 0; 0; 0] 0) "evil.example"%string).
  simpl. lia.
Defined.

(** X5. A filter of size 0, which the constructor accepts, cannot be used:
    with a positive hash count every [add] and every [contains] raises
    [ZeroDivisionError]; with a hash count of zero or less [add] succeeds and
    [estimate_false_positive_rate] then raises [ZeroDivisionError]. *)
Theorem size_zero_filter_raises (hash_count : Z) (x : string) :
  exists bf,
    BloomFilter.__init__ 0 hash_count = Py.Ok bf
    /\ (0 < hash_count ->
        BloomFilter.add bf x = Py.Raise Py.ZeroDivisionError
        /\ BloomFilter.contains bf x = Py.Raise Py.ZeroDivisionError)
    /\ (hash_count <= 0 ->
        exists bf',
          BloomFilter.add bf x = Py.Ok bf'
          /\ BloomFilter.estimate_false_positive_rate bf'
             = Py.Raise Py.ZeroDivisionError).
Proof.
  eexists. split; [reflexivity|]. split.
  - intros Hk. split.
    + apply BloomFacts.add_raises_without_cells; [reflexivity|exact Hk].
    + unfold BloomFilter.contains, Py.range. simpl BloomFilter.hash_count.
      destruct (Z.to_nat hash_count) as [|n] eqn:E; [lia|]. reflexivity.
  - intros Hk. eexists. split.
    + apply BloomMore.add_without_rounds. exact Hk.
    + reflexivity.
Qed.

(** An instance of [size_zero_filter_raises]. *)
Lemma size_zero_filter_raises_witness :
  exists bf,
    BloomFilter.__init__ 0 5 = Py.Ok bf
    /\ BloomFilter.add bf "evil.example" = Py.Raise Py.ZeroDivisionError
    /\ BloomFilter.contains bf "evil.example" = Py.Raise Py.ZeroDivisionError.
Proof.
  destruct (size_zero_filter_raises 5 "evil.example"%string)
    as (bf & E & H & _).
  exists bf. split; [exact E|]. apply H. lia.
Defined.

(** X6. The bit array depends only on the set of inserted items: two lists
    with the same members, in any order and with any repetitions, leave the
    same bit array, so the two filters answer [contains] alike. *)
Theorem bit_array_depends_on_item_set
    (bf : BloomFilter.t) (items items' : list string) :
  BloomInv.wf bf ->
  0 < BloomFilter.size bf \/ BloomFilter.hash_count bf <= 0 ->
  (forall x, In x items <-> In x items') ->
  exists b1 b2,
    BloomFilter.add_multiple bf items = Py.Ok b1
    /\ BloomFilter.add_multiple bf items' = Py.Ok b2
    /\ BloomFilter.bit_array b1 = BloomFilter.bit_array b2
    /\ forall y, BloomFilter.contains b1 y = BloomFilter.contains b2 y.
Proof.
  intros Hwf Hs Hsame.
  rewrite (BloomMore.add_multiple_eq items bf Hwf Hs).
  rewrite (BloomMore.add_multiple_eq items' bf Hwf Hs).
  eexists _, _. split; [reflexivity|]. split; [reflexivity|].
  assert (BloomInv.set_all (flat_map (BloomInv.positions bf) items)
            (BloomFilter.bit_array bf)
          = BloomInv.set_all (flat_map (BloomInv.positions bf) items')
              (BloomFilter.bit_array bf)) as Hbits.
  { apply list_eq. intros q. rewrite !BloomMore.set_all_lookup.
    assert (forall l l' : list string,
              (forall x, In x l -> In x l') ->
              q ∈ flat_map (BloomInv.positions bf) l ->
              q ∈ flat_map (BloomInv.positions bf) l') as Hsub.
    { intros l l' Hll Hq. apply list_elem_of_In in Hq.
      apply list_elem_of_In. apply in_flat_map in Hq.
      destruct Hq as (x & Hx & Hq). apply in_flat_map.
      exists x. split; [apply Hll, Hx|exact Hq]. }
    destruct (decide (q ∈ flat_map (BloomInv.positions bf) items
                      /\ (q < length (BloomFilter.bit_array bf))%nat))
      as [[H1 H2]|H1];
      destruct (decide (q ∈ flat_map (BloomInv.positions bf) items'
                        /\ (q < length (BloomFilter.bit_array bf))%nat))
        as [[H3 H4]|H3]; try reflexivity; exfalso.
    - apply H3. split; [|exact H2].
      apply (Hsub items items'); [intros x; apply Hsame|exact H1].
    - apply H1. split; [|exact H4].
      apply (Hsub items' items); [intros x; apply Hsame|exact H3]. }
  split; [exact Hbits|].
  intros y. apply BloomMore.contains_same_cells; simpl; auto.
Qed.

(** An instance of [bit_array_depends_on_item_set]. *)
Lemma bit_array_depends_on_item_set_witness :
  exists b1 b2,
    BloomFilter.add_multiple (BloomFilter.mk 8 2 (replicate 8 0) 0)
      ["a"%string; "b"%string] = Py.Ok b1
    /\ BloomFilter.add_multiple (BloomFilter.mk 8 2 (replicate 8 0) 0)
         ["b"%string; "a"%string; "b"%string] = Py.Ok b2
    /\ BloomFilter.bit_array b1 = BloomFilter.bit_array b2
    /\ forall y, BloomFilter.contains b1 y = BloomFilter.contains b2 y.
Proof.
  apply (bit_array_depends_on_item_set
           (BloomFilter.mk 8 2 (replicate 8 0) 0)
           ["a"%string; "b"%string] ["b"%string; "a"%string; "b"%string]);
    [reflexivity | left; simpl; lia | intros x; simpl; tauto].
Defined.

(** X7. For positive size and hash count the estimated false positive rate
    is a probability: [estimate_false_positive_rate] returns a value between
    0 and 1 for every item count, and 0 for a filter without insertion. *)
Theorem false_positive_rate_in_unit_interval (bf : BloomFilter.t) :
  0 < BloomFilter.size bf -> 0 < BloomFilter.hash_count bf ->
  0 <= BloomFilter.item_count bf ->
  exists r,
    BloomFilter.estimate_false_positive_rate bf = Py.Ok r
    /\ (0 <= r <= 1)%R
    /\ (BloomFilter.item_count bf = 0 -> r = 0%R).
Proof.
  intros Hm Hk Hn. unfold BloomFilter.estimate_false_positive_rate.
  destruct (Z.eqb_spec (BloomFilter.item_count bf) 0) as [E0|E0].
  - exists 0%R. split; [reflexivity|]. split; [lra|]. reflexivity.
  - destruct (BloomFilter.size bf =? 0) eqn:E1; [lia|].
    eexists. split; [reflexivity|].
    rewrite RealFacts.powerRZ_pos by exact Hk.
    pose proof (RealFacts.exponent_negative (BloomFilter.hash_count bf)
                  (BloomFilter.item_count bf) (BloomFilter.size bf)
                  Hm Hk ltac:(lia)) as Hneg.
    pose proof (RealFacts.exp_neg_lt_1 _ Hneg) as Hlt.
    pose proof (exp_pos (IZR (- BloomFilter.hash_count bf
                              * BloomFilter.item_count bf)
                         / IZR (BloomFilter.size bf))) as Hpos.
    split; [|intros H0; contradiction].
    split.
    + apply pow_le. lra.
    + apply Rlt_le, pow_lt_1_compat; [lra|lia].
Qed.

(** An instance of [false_positive_rate_in_unit_interval]. *)
Lemma false_positive_rate_in_unit_interval_witness :
  exists r,
    BloomFilter.estimate_false_positive_rate
      (BloomFilter.mk 8 2 [0; 0; 0; 0; 1; 0; 1; 0] 1) = Py.Ok r
    /\ (0 <= r <= 1)%R.
Proof.
  destruct (false_positive_rate_in_unit_interval
              (BloomFilter.mk 8 2 [0; 0; 0; 0; 1; 0; 1; 0] 1))
    as (r & E & H & _); simpl; try lia.
  exists r. split; assumption.
Defined.

(** ** More facts about the store of filter objects *)

Module StoreMore.
Import BloomFilter BloomInv StoreSpec.

(** The run of [intersect] or [union] on operands with equal parameters:
    the new object is the next free reference and holds the combined cells
    with [item_count] 0. *)
Lemma combine_exact (f : Z -> Z -> Z) (h : store) (self other : positive)
    (a b : t) :
  h !! self = Some a -> h !! other = Some b ->
  length (bit_array a) = length (bit_array b) -> 0 <= size a ->
  (let* created := new (size a) (hash_count a) h in
   let result := fst created in
   let h := snd created in
   let* s := load self h in
   let* o := load other h in
   let* bits := Np.broadcast f (bit_array s) (bit_array o) in
   let* h := assign_bit_array result bits h in
   Py.Ok (result, h))
  = Py.Ok (fresh (dom h),
           <[fresh (dom h) :=
               mk (size a) (hash_count a)
                  (zip_with f (bit_array a) (bit_array b)) 0]> h).
Proof.
  intros Ha Hb Hlen Hs.
  assert (h !! fresh (dom h) = None) as Hr
    by (apply not_elem_of_dom, is_fresh).
  assert (fresh (dom h) <> self) as Hrs by congruence.
  assert (fresh (dom h) <> other) as Hro by congruence.
  unfold new. rewrite BloomFacts.init_ok by exact Hs.
  cbn [Py.bind fst snd]. unfold load.
  rewrite !lookup_insert_ne by assumption. rewrite Ha, Hb.
  cbn [Py.bind]. rewrite StoreFacts.broadcast_same_length by exact Hlen.
  cbn [Py.bind]. unfold assign_bit_array, load.
  rewrite lookup_insert_eq. cbn [Py.bind].
  rewrite insert_insert_eq. reflexivity.
Qed.

Lemma intersect_exact (h : store) (self other : positive) (a b : t) :
  h !! self = Some a -> h !! other = Some b -> wf a -> wf b ->
  size a = size b -> hash_count a = hash_count b ->
  intersect self other h
  = Py.Ok (fresh (dom h),
           <[fresh (dom h) :=
               mk (size a) (hash_count a)
                  (zip_with and_cells (bit_array a) (bit_array b)) 0]> h).
Proof.
  intros Ha Hb Wa Wb Es Ek. unfold wf in Wa, Wb.
  unfold intersect at 1. unfold load at 1 2. rewrite Ha, Hb. cbn [Py.bind].
  rewrite (StoreFacts.guard_agrees a b Es Ek).
  apply (combine_exact and_cells); try assumption; lia.
Qed.

Lemma union_exact (h : store) (self other : positive) (a b : t) :
  h !! self = Some a -> h !! other = Some b -> wf a -> wf b ->
  size a = size b -> hash_count a = hash_count b ->
  union self other h
  = Py.Ok (fresh (dom h),
           <[fresh (dom h) :=
               mk (size a) (hash_count a)
                  (zip_with or_cells (bit_array a) (bit_array b)) 0]> h).
Proof.
  intros Ha Hb Wa Wb Es Ek. unfold wf in Wa, Wb.
  unfold union at 1. unfold load at 1 2. rewrite Ha, Hb. cbn [Py.bind].
  rewrite (StoreFacts.guard_agrees a b Es Ek).
  apply (combine_exact or_cells); try assumption; lia.
Qed.

Lemma binary_counts (a b : list Z) :
  binary a -> binary b -> length a = length b ->
  Np.sum (zip_with and_cells a b) + Np.sum (zip_with or_cells a b)
    = Np.sum a + Np.sum b
  /\ Np.sum (zip_with and_cells a b) <= Z.min (Np.sum a) (Np.sum b)
  /\ Z.max (Np.sum a) (Np.sum b) <= Np.sum (zip_with or_cells a b)
  /\ binary (zip_with and_cells a b)
  /\ binary (zip_with or_cells a b).
Proof.
  intros Ha. revert b. induction Ha as [|x a Hx Ha IH]; intros b Hb Hlen.
  - destruct b; [|discriminate]. simpl. repeat split; try lia; constructor.
  - destruct b as [|y b]; [discriminate|].
    inversion Hb as [|? ? Hy Hb']; subst.
    injection Hlen as Hlen.
    destruct (IH b Hb' Hlen) as (H1 & H2 & H3 & H4 & H5).
    assert (and_cells x y + or_cells x y = x + y
            /\ and_cells x y <= x /\ and_cells x y <= y
            /\ x <= or_cells x y /\ y <= or_cells x y
            /\ (and_cells x y = 0 \/ and_cells x y = 1)
            /\ (or_cells x y = 0 \/ or_cells x y = 1))
      as (E1 & E2 & E3 & E4 & E5 & E6 & E7).
    { destruct Hx as [-> | ->]; destruct Hy as [-> | ->];
        vm_compute; repeat split; auto; discriminate. }
    simpl. repeat split; try lia; constructor; assumption.
Qed.

Lemma cell_set_and (a b : list Z) (q : nat) :
  length a = length b ->
  BloomInv.cell_set (zip_with and_cells a b) q
    = BloomInv.cell_set a q && BloomInv.cell_set b q.
Proof.
  revert b q. induction a as [|x a IH]; intros b q Hlen.
  - destruct b; [|discriminate]. reflexivity.
  - destruct b as [|y b]; [discriminate|]. injection Hlen as Hlen.
    destruct q as [|q].
    + unfold BloomInv.cell_set. simpl. unfold and_cells, Np.truthy.
      destruct (x =? 0), (y =? 0); reflexivity.
    + specialize (IH b q Hlen). unfold BloomInv.cell_set in *. simpl.
      exact IH.
Qed.

Lemma cell_set_or (a b : list Z) (q : nat) :
  length a = length b ->
  BloomInv.cell_set (zip_with or_cells a b) q
    = BloomInv.cell_set a q || BloomInv.cell_set b q.
Proof.
  revert b q. induction a as [|x a IH]; intros b q Hlen.
  - destruct b; [|discriminate]. reflexivity.
  - destruct b as [|y b]; [discriminate|]. injection Hlen as Hlen.
    destruct q as [|q].
    + unfold BloomInv.cell_set. simpl. unfold or_cells, Np.truthy.
      destruct (x =? 0), (y =? 0); reflexivity.
    + specialize (IH b q Hlen). unfold BloomInv.cell_set in *. simpl.
      exact IH.
Qed.

Lemma forallb_cells_and (a b : list Z) (l : list nat) :
  length a = length b ->
  forallb (BloomInv.cell_set (zip_with and_cells a b)) l
    = forallb (BloomInv.cell_set a) l && forallb (BloomInv.cell_set b) l.
Proof.
  intros Hlen. induction l as [|q l IH]; simpl; [reflexivity|].
  rewrite IH, cell_set_and by exact Hlen.
  destruct (BloomInv.cell_set a q), (BloomInv.cell_set b q),
    (forallb (BloomInv.cell_set a) l), (forallb (BloomInv.cell_set b) l);
    reflexivity.
Qed.

End StoreMore.

(** ** Further properties of [intersect] and [union] *)

(** X8. For two filters with equal parameters whose cells are 0 or 1, the
    set-bit counts of the intersection and of the union obey inclusion and
    exclusion: they add up to the two operands' counts, the intersection has
    at most the smaller count and the union at least the larger one. Both new
    filters have [item_count] 0, whatever the operands held. *)
Theorem intersect_union_bit_counts
    (h : BloomFilter.store) (self other : positive) (a b : BloomFilter.t) :
  h !! self = Some a -> h !! other = Some b ->
  BloomInv.wf a -> BloomInv.wf b ->
  BloomFilter.size a = BloomFilter.size b ->
  BloomFilter.hash_count a = BloomFilter.hash_count b ->
  BloomInv.binary (BloomFilter.bit_array a) ->
  BloomInv.binary (BloomFilter.bit_array b) ->
  exists ri hi ci ru hu cu,
    BloomFilter.intersect self other h = Py.Ok (ri, hi)
    /\ hi !! ri = Some ci
    /\ BloomFilter.union self other h = Py.Ok (ru, hu)
    /\ hu !! ru = Some cu
    /\ BloomFilter.count_set_bits ci + BloomFilter.count_set_bits cu
       = BloomFilter.count_set_bits a + BloomFilter.count_set_bits b
    /\ BloomFilter.count_set_bits ci
       <= Z.min (BloomFilter.count_set_bits a) (BloomFilter.count_set_bits b)
    /\ Z.max (BloomFilter.count_set_bits a) (BloomFilter.count_set_bits b)
       <= BloomFilter.count_set_bits cu
    /\ BloomFilter.item_count ci = 0 /\ BloomFilter.item_count cu = 0.
Proof.
  intros Ha Hb Wa Wb Es Ek Ba Bb.
  rewrite (StoreMore.intersect_exact h self other a b) by assumption.
  rewrite (StoreMore.union_exact h self other a b) by assumption.
  assert (length (BloomFilter.bit_array a) = length (BloomFilter.bit_array b))
    as Hlen by (unfold BloomInv.wf in Wa, Wb; lia).
  destruct (StoreMore.binary_counts _ _ Ba Bb Hlen) as (H1 & H2 & H3 & _ & _).
  eexists _, _, _, _, _, _.
  split; [reflexivity|]. split; [apply lookup_insert_eq|].
  split; [reflexivity|]. split; [apply lookup_insert_eq|].
  unfold BloomFilter.count_set_bits. simpl. repeat split; assumption.
Qed.

(** An instance of [intersect_union_bit_counts]. *)
Lemma intersect_union_bit_counts_witness :
  let a := BloomFilter.mk 4 2 [1; 0; 1; 0] 1 in
  let b := BloomFilter.mk 4 2 [1; 1; 0; 0] 2 in
  let h : BloomFilter.store := <[1%positive := a]> (<[2%positive := b]> ∅) in
  exists ri hi ci ru hu cu,
    BloomFilter.intersect 1 2 h = Py.Ok (ri, hi)
    /\ hi !! ri = Some ci
    /\ BloomFilter.union 1 2 h = Py.Ok (ru, hu)
    /\ hu !! ru = Some cu
    /\ BloomFilter.count_set_bits ci + BloomFilter.count_set_bits cu = 2 + 2.
Proof.
  intros a b h.
  destruct (intersect_union_bit_counts h 1 2 a b)
    as (ri & hi & ci & ru & hu & cu & E1 & L1 & E2 & L2 & H & _);
    try reflexivity;
    try (repeat constructor; (left; reflexivity) || (right; reflexivity)).
  exists ri, hi, ci, ru, hu, cu. repeat split; assumption.
Defined.

(** X9. For two filters with equal parameters and at least one cell, the
    intersection reports an item exactly when both operands report it, and
    the union reports every item that one of the operands reports. *)
Theorem intersect_union_membership
    (h : BloomFilter.store) (self other : positive) (a b : BloomFilter.t)
    (x : string) :
  h !! self = Some a -> h !! other = Some b ->
  BloomInv.wf a -> BloomInv.wf b ->
  BloomFilter.size a = BloomFilter.size b ->
  BloomFilter.hash_count a = BloomFilter.hash_count b ->
  0 < BloomFilter.size a ->
  exists ri hi ci ru hu cu,
    BloomFilter.intersect self other h = Py.Ok (ri, hi)
    /\ hi !! ri = Some ci
    /\ BloomFilter.union self other h = Py.Ok (ru, hu)
    /\ hu !! ru = Some cu
    /\ (BloomFilter.contains ci x = Py.Ok true
        <-> BloomFilter.contains a x = Py.Ok true
            /\ BloomFilter.contains b x = Py.Ok true)
    /\ (BloomFilter.contains a x = Py.Ok true
        \/ BloomFilter.contains b x = Py.Ok true ->
        BloomFilter.contains cu x = Py.Ok true).
Proof.
  intros Ha Hb Wa Wb Es Ek Hs.
  rewrite (StoreMore.intersect_exact h self other a b) by assumption.
  rewrite (StoreMore.union_exact h self other a b) by assumption.
  assert (length (BloomFilter.bit_array a) = length (BloomFilter.bit_array b))
    as Hlen by (unfold BloomInv.wf in Wa, Wb; lia).
  eexists _, _, _, _, _, _.
  split; [reflexivity|]. split; [apply lookup_insert_eq|].
  split; [reflexivity|]. split; [apply lookup_insert_eq|].
  set (ci := BloomFilter.mk _ _ (zip_with StoreSpec.and_cells _ _) 0).
  set (cu := BloomFilter.mk _ _ (zip_with StoreSpec.or_cells _ _) 0).
  assert (BloomInv.wf ci) as Wi
    by (unfold BloomInv.wf, ci; simpl; rewrite length_zip_with;
        unfold BloomInv.wf in Wa; lia).
  assert (BloomInv.wf cu) as Wu
    by (unfold BloomInv.wf, cu; simpl; rewrite length_zip_with;
        unfold BloomInv.wf in Wa; lia).
  rewrite (BloomMore.contains_eq ci x Wi Hs).
  rewrite (BloomMore.contains_eq cu x Wu Hs).
  rewrite (BloomMore.contains_eq a x Wa Hs).
  rewrite (BloomMore.contains_eq b x Wb ltac:(lia)).
  rewrite (BloomFacts.positions_same_params ci a) by reflexivity.
  rewrite (BloomFacts.positions_same_params cu a) by reflexivity.
  rewrite (BloomFacts.positions_same_params b a) by auto.
  simpl BloomFilter.bit_array.
  rewrite StoreMore.forallb_cells_and by exact Hlen.
  split.
  - split.
    + intros H. injection H as H. apply andb_true_iff in H.
      destruct H as [-> ->]. split; reflexivity.
    + intros [H1 H2]. injection H1 as ->. injection H2 as ->. reflexivity.
  - intros H. f_equal. apply forallb_forall. intros q Hq.
    rewrite StoreMore.cell_set_or by exact Hlen. apply orb_true_iff.
    destruct H as [H|H]; injection H as H; rewrite forallb_forall in H;
      [left|right]; apply H, Hq.
Qed.

(** An instance of [intersect_union_membership]. *)
Lemma intersect_union_membership_witness :
  let a := BloomFilter.mk 8 2 [0; 0; 0; 1; 1; 0; 1; 0] 2 in
  let b := BloomFilter.mk 8 2 [0; 0; 0; 0; 1; 0; 1; 0] 1 in
  let h : BloomFilter.store := <[1%positive := a]> (<[2%positive := b]> ∅) in
  exists ri hi ci,
    BloomFilter.intersect 1 2 h = Py.Ok (ri, hi)
    /\ hi !! ri = Some ci
    /\ BloomFilter.contains ci "a" = Py.Ok true.
Proof.
  intros a b h.
  destruct (intersect_union_membership h 1 2 a b "a"%string
              eq_refl eq_refl eq_refl eq_refl eq_refl eq_refl eq_refl)
    as (ri & hi & ci & ru & hu & cu & E1 & L1 & _ & _ & H & _).
  exists ri, hi, ci. split; [exact E1|]. split; [exact L1|].
  apply H. split; vm_compute; reflexivity.
Defined.

(** ** More facts about the estimator *)

Module EstimatorMore.
Local Open Scope R_scope.





Lemma ln_le_compat (x y : R) : 0 < x -> x <= y -> ln x <= ln y.
Proof.
  intros Hx [Hlt | ->]; [left; apply ln_increasing; assumption|right; reflexivity].
Qed.

(** The ratio of a count below the size. *)
Lemma ratio_below_1 (s m : Z) :
  (0 <= s < m)%Z -> 0 <= IZR s / IZR m < 1.
Proof.
  intros [Hs Hm]. assert (0 < IZR m) as Hp by (apply IZR_lt; lia).
  apply IZR_le in Hs. apply IZR_lt in Hm.
  assert (0 < / IZR m) as Hi by (apply Rinv_0_lt_compat, Hp).
  unfold Rdiv. split.
  - apply Rmult_le_pos; lra.
  - apply Rmult_lt_reg_r with (IZR m); [exact Hp|].
    rewrite Rmult_assoc, Rinv_l; lra.
Qed.

(** Below saturation the guarded estimate is the plain inverse formula,
    also at 0, where the logarithm vanishes. *)
Lemma n_hat_guarded_plain (m k s : Z) :
  (0 <= s < m)%Z ->
  EstimatorSpec.n_hat_guarded m k s
    = - (IZR m / IZR k) * ln (1 - IZR s / IZR m).
Proof.
  intros [Hs Hm]. destruct (Z.eq_dec s 0%Z) as [->|Hne].
  - unfold EstimatorSpec.n_hat_guarded. simpl (0 =? 0)%Z. cbv iota.
    unfold Rdiv at 2. rewrite Rmult_0_l, Rminus_0_r, ln_1. lra.
  - apply EstimatorFacts.n_hat_guarded_below; assumption.
Qed.

Lemma n_hat_guarded_mono (m k s s' : Z) :
  (0 < k)%Z -> (0 <= s <= s')%Z -> (s' < m)%Z ->
  EstimatorSpec.n_hat_guarded m k s <= EstimatorSpec.n_hat_guarded m k s'.
Proof.
  intros Hk [Hs Hss] Hm.
  rewrite !n_hat_guarded_plain by lia.
  assert (0 < IZR m) as Hpm by (apply IZR_lt; lia).
  assert (0 < IZR k) as Hpk by (apply IZR_lt; lia).
  assert (0 < IZR m / IZR k) as Hc by (apply Rdiv_lt_0_compat; assumption).
  destruct (ratio_below_1 s m ltac:(lia)) as [_ H1].
  destruct (ratio_below_1 s' m ltac:(lia)) as [_ H2].
  assert (IZR s / IZR m <= IZR s' / IZR m) as Hr.
  { unfold Rdiv. apply Rmult_le_compat_r;
      [left; apply Rinv_0_lt_compat, Hpm|apply IZR_le, Hss]. }
  assert (ln (1 - IZR s' / IZR m) <= ln (1 - IZR s / IZR m)) as Hln
    by (apply ln_le_compat; lra).
  assert (0 <= (IZR m / IZR k)
               * (ln (1 - IZR s / IZR m) - ln (1 - IZR s' / IZR m))) as H
    by (apply Rmult_le_pos; lra).
  lra.
Qed.

Lemma n_hat_guarded_nonneg (m k s : Z) :
  (0 < k)%Z -> (0 <= s < m)%Z -> 0 <= EstimatorSpec.n_hat_guarded m k s.
Proof.
  intros Hk Hs.
  pose proof (n_hat_guarded_mono m k 0 s Hk ltac:(lia) ltac:(lia)) as H.
  replace (EstimatorSpec.n_hat_guarded m k 0) with 0 in H; [exact H|].
  reflexivity.
Qed.


End EstimatorMore.

(** ** Further properties of the estimator *)







(** X13. Both statistics are symmetric in the two parties: exchanging
    [bloom1_bits] and [bloom2_bits] changes neither the Jaccard similarity
    nor the estimated overlap, nor whether the estimate raises. *)
Theorem statistics_are_symmetric
    (overlap_bits bloom1_bits bloom2_bits bloom_size hash_count : Z) :
  OverlapCalculator.calculate_jaccard_similarity
    overlap_bits bloom1_bits bloom2_bits
  = OverlapCalculator.calculate_jaccard_similarity
      overlap_bits bloom2_bits bloom1_bits
  /\ OverlapCalculator.estimate_set_overlap
       overlap_bits bloom1_bits bloom2_bits bloom_size hash_count
     = OverlapCalculator.estimate_set_overlap
         overlap_bits bloom2_bits bloom1_bits bloom_size hash_count.
Proof.
  split.
  - unfold OverlapCalculator.calculate_jaccard_similarity.
    rewrite (Z.add_comm bloom2_bits bloom1_bits). reflexivity.
  - unfold OverlapCalculator.estimate_set_overlap.
    rewrite (Z.add_comm bloom2_bits bloom1_bits).
    assert (forall s e,
              OverlapCalculator.estimate_items bloom_size hash_count s
                = Py.Raise e -> e = Py.ZeroDivisionError) as Hexn.
    { intros s e. unfold OverlapCalculator.estimate_items.
      destruct (s =? 0); [discriminate|].
      destruct (bloom_size =? 0); [congruence|].
      destruct (hash_count =? 0); [congruence|discriminate]. }
    destruct (OverlapCalculator.estimate_items bloom_size hash_count
                bloom1_bits) as [r1|e1] eqn:E1;
      destruct (OverlapCalculator.estimate_items bloom_size hash_count
                  bloom2_bits) as [r2|e2] eqn:E2; cbn [Py.bind].
    + destruct (OverlapCalculator.estimate_items bloom_size hash_count
                  (bloom1_bits + bloom2_bits - overlap_bits));
        cbn [Py.bind]; [|reflexivity].
      rewrite (Rplus_comm r2 r1). reflexivity.
    + reflexivity.
    + reflexivity.
    + rewrite (Hexn _ _ E1), (Hexn _ _ E2). reflexivity.
Qed.



(** ** The encryption engine *)

Module EngineMore.
Import BloomInv StoreSpec.

Lemma sum_from (l : list Z) (a : Z) : fold_left Z.add l a = a + Np.sum l.
Proof.
  revert a. induction l as [|x l IH]; intros a; simpl.
  - lia.
  - rewrite IH. unfold Np.sum. lia.
Qed.

Lemma sum_fold (l : list Z) : Py.sum l = Np.sum l.
Proof. unfold Py.sum. rewrite sum_from. lia. Qed.

Lemma mul_cells (d1 d2 : list Z) :
  binary d1 -> binary d2 -> zip_with Z.mul d1 d2 = zip_with and_cells d1 d2.
Proof.
  intros H1. revert d2. induction H1 as [|x d1 Hx _ IH]; intros d2 H2.
  - reflexivity.
  - destruct H2 as [|y d2 Hy H2]; [reflexivity|].
    simpl. rewrite (IH d2 H2). f_equal.
    destruct Hx as [-> | ->], Hy as [-> | ->]; reflexivity.
Qed.

Lemma plain_lawful : TenSEALSpec.lawful TenSEAL.plain.
Proof.
  split.
  - intros ctx data c _ H. simpl in *. injection H as <-. reflexivity.
  - intros ctx c1 c2 c3 d1 d2 _ _ _ H1 H2 H3. simpl in *.
    injection H1 as <-. injection H2 as <-. injection H3 as <-. reflexivity.
Qed.

Section Facts.
Context {lib : TenSEAL.Lib}.

Lemma generate_keys_ok (e0 e : HEEngine.t)
    (keys : TenSEAL.bytes * TenSEAL.bytes) :
  HEEngine.generate_keys e0 = Py.Ok (e, keys) ->
  exists ctx,
    TenSEAL.new_context (HEEngine.poly_modulus_degree e0)
      (HEEngine.plain_modulus e0) (HEEngine.coeff_mod_bit_sizes e0)
      = Py.Ok ctx
    /\ e = HEEngine.mk (HEEngine.poly_modulus_degree e0)
             (HEEngine.coeff_mod_bit_sizes e0) (HEEngine.plain_modulus e0)
             (Some ctx) (Some (TenSEAL.serialize ctx false))
             (Some (TenSEAL.serialize ctx true))
    /\ keys = (TenSEAL.serialize ctx false, TenSEAL.serialize ctx true).
Proof.
  unfold HEEngine.generate_keys.
  destruct (TenSEAL.new_context _ _ _) as [ctx|err]; simpl; [|discriminate].
  intros H. injection H as <- <-. exists ctx. repeat split.
Qed.

End Facts.
End EngineMore.

(** X15. An engine on which no key was generated or loaded refuses every
    operation on vectors with a [ValueError], whatever its parameters and
    whatever the arguments, and without calling the library; its context
    information is the single entry [status: not_initialized]. *)
Theorem engine_without_keys_refuses {lib : TenSEAL.Lib}
    (poly_modulus_degree : Z) (coeff_mod_bit_sizes : option (list Z))
    (plain_modulus : Z)
    (bfv_add :
       TenSEAL.context -> TenSEAL.bytes -> TenSEAL.bytes
       -> Py.result TenSEAL.bytes)
    (bfv_mul_plain :
       TenSEAL.context -> TenSEAL.bytes -> Z -> Py.result TenSEAL.bytes)
    (data : list Z) (c1 c2 : TenSEAL.bytes) (plaintext : Z) :
  let engine :=
    HEEngine.__init__ poly_modulus_degree coeff_mod_bit_sizes plain_modulus in
  HEEngine.encrypt engine data = Py.Raise Py.ValueError
  /\ HEEngine.decrypt engine c1 = Py.Raise Py.ValueError
  /\ HEEngine.add_encrypted bfv_add engine c1 c2 = Py.Raise Py.ValueError
  /\ HEEngine.multiply_encrypted engine c1 c2 = Py.Raise Py.ValueError
  /\ HEEngine.multiply_plain bfv_mul_plain engine c1 plaintext
     = Py.Raise Py.ValueError
  /\ HEEngine.sum_encrypted engine c1 = Py.Raise Py.ValueError
  /\ HEEngine.get_context_info engine
     = Py.Dict [("status", Py.Str "not_initialized")]%string.
Proof. repeat split. Qed.

(** X16. Loading a key replaces the context and stores the key, and leaves
    the other key as it was. After [load_public_key] on an engine without
    private key, [decrypt] raises a [ValueError] for every ciphertext, while
    [encrypt] goes to the library and [sum_encrypted], which does not look at
    the private key, asks the library to decrypt. After [load_private_key],
    [decrypt] goes to the library. *)
Theorem loaded_keys_and_decryption {lib : TenSEAL.Lib}
    (context_from : TenSEAL.bytes -> Py.result TenSEAL.context)
    (engine engine' : HEEngine.t) (key : TenSEAL.bytes) :
  (HEEngine.load_public_key context_from engine key = Py.Ok engine' ->
   exists ctx,
     context_from key = Py.Ok ctx
     /\ HEEngine.context engine' = Some ctx
     /\ HEEngine.public_key engine' = Some key
     /\ HEEngine.private_key engine' = HEEngine.private_key engine
     /\ (forall data,
           HEEngine.encrypt engine' data = TenSEAL.bfv_vector ctx data)
     /\ (HEEngine.private_key engine = None ->
         forall c, HEEngine.decrypt engine' c = Py.Raise Py.ValueError)
     /\ (forall c,
           HEEngine.sum_encrypted engine' c
           = (let* decrypted := TenSEAL.bfv_decrypt ctx c in
              TenSEAL.bfv_vector ctx [Py.sum decrypted])))
  /\ (HEEngine.load_private_key context_from engine key = Py.Ok engine' ->
      exists ctx,
        context_from key = Py.Ok ctx
        /\ HEEngine.context engine' = Some ctx
        /\ HEEngine.private_key engine' = Some key
        /\ HEEngine.public_key engine' = HEEngine.public_key engine
        /\ forall c,
             HEEngine.decrypt engine' c = TenSEAL.bfv_decrypt ctx c).
Proof.
  split.
  - unfold HEEngine.load_public_key.
    destruct (context_from key) as [ctx|err]; simpl; [|discriminate].
    intros H. injection H as <-. exists ctx.
    split; [reflexivity|]. split; [reflexivity|]. split; [reflexivity|].
    split; [reflexivity|]. split; [reflexivity|]. split; [|reflexivity].
    intros Hp c. unfold HEEngine.decrypt. simpl. rewrite Hp. reflexivity.
  - unfold HEEngine.load_private_key.
    destruct (context_from key) as [ctx|err]; simpl; [|discriminate].
    intros H. injection H as <-. exists ctx. repeat split.
Qed.

(** An instance of [loaded_keys_and_decryption]. *)
Lemma loaded_keys_and_decryption_witness :
  let context_from :=
    fun _ : @TenSEAL.bytes TenSEAL.plain =>
      Py.Ok (tt : @TenSEAL.context TenSEAL.plain) in
  exists engine',
    HEEngine.load_public_key context_from HEEngine.default [] = Py.Ok engine'
    /\ HEEngine.decrypt engine' [1; 0; 1] = Py.Raise Py.ValueError
    /\ HEEngine.sum_encrypted engine' [1; 0; 1] = Py.Ok [2].
Proof.
  intros context_from.
  pose (loaded :=
          (HEEngine.mk 8192 [60; 40; 40; 60] 1032193
             (Some (tt : @TenSEAL.context TenSEAL.plain))
             (Some ([] : @TenSEAL.bytes TenSEAL.plain)) None
           : @HEEngine.t TenSEAL.plain)).
  exists loaded. split; [reflexivity|].
  destruct (loaded_keys_and_decryption (lib := TenSEAL.plain) context_from
              HEEngine.default loaded []) as [Hpub _].
  destruct (Hpub eq_refl) as (ctx & _ & _ & _ & _ & _ & Hd & Hs).
  split; [apply Hd; reflexivity|]. rewrite Hs. reflexivity.
Defined.

(** X17. Round trip through an engine with generated keys, for a library in
    which decryption undoes encryption and the product of two ciphertexts
    decrypts to the element-wise product: what [encrypt] returns for a
    vector of 0 and 1 decrypts to that vector, and the product of the
    ciphertexts of two such vectors of equal length decrypts to their
    cell-wise conjunction, so that [count_overlap_bits] returns the number
    of cells set in both. *)
Theorem engine_round_trip {lib : TenSEAL.Lib}
    (engine0 engine : HEEngine.t) (keys : TenSEAL.bytes * TenSEAL.bytes)
    (d1 d2 : list Z) (c1 c2 c3 : TenSEAL.bytes) :
  TenSEALSpec.lawful lib ->
  HEEngine.generate_keys engine0 = Py.Ok (engine, keys) ->
  BloomInv.binary d1 -> BloomInv.binary d2 -> length d1 = length d2 ->
  HEEngine.encrypt engine d1 = Py.Ok c1 ->
  HEEngine.encrypt engine d2 = Py.Ok c2 ->
  HEEngine.multiply_encrypted engine c1 c2 = Py.Ok c3 ->
  HEEngine.decrypt engine c1 = Py.Ok d1
  /\ HEEngine.decrypt engine c2 = Py.Ok d2
  /\ HEEngine.decrypt engine c3
     = Py.Ok (zip_with StoreSpec.and_cells d1 d2)
  /\ OverlapCalculator.count_overlap_bits engine c3
     = Py.Ok (Np.sum (zip_with StoreSpec.and_cells d1 d2))
  /\ HEEngine.get_context_info engine
     = Py.Dict
         [("poly_modulus_degree",
           Py.Int (HEEngine.poly_modulus_degree engine0));
          ("coeff_mod_bit_sizes",
           Py.List (map Py.Int (HEEngine.coeff_mod_bit_sizes engine0)));
          ("plain_modulus", Py.Int (HEEngine.plain_modulus engine0));
          ("status", Py.Str "initialized")]%string.
Proof.
  intros Hlaw Hgen Hb1 Hb2 Hlen He1 He2 Hm.
  destruct (EngineMore.generate_keys_ok _ _ _ Hgen) as (ctx & _ & -> & _).
  unfold HEEngine.encrypt, HEEngine.multiply_encrypted in *. simpl in *.
  pose proof (TenSEALSpec.decrypt_encrypt lib Hlaw ctx d1 c1 Hb1 He1) as D1.
  pose proof (TenSEALSpec.decrypt_encrypt lib Hlaw ctx d2 c2 Hb2 He2) as D2.
  pose proof (TenSEALSpec.decrypt_mul lib Hlaw ctx c1 c2 c3 d1 d2
                Hb1 Hb2 Hlen D1 D2 Hm) as D3.
  rewrite (EngineMore.mul_cells d1 d2 Hb1 Hb2) in D3.
  unfold OverlapCalculator.count_overlap_bits, HEEngine.decrypt. simpl.
  rewrite D1, D2, D3. simpl. rewrite EngineMore.sum_fold.
  repeat split.
Qed.

(** An instance of [engine_round_trip]. *)
Lemma engine_round_trip_witness :
  OverlapCalculator.count_overlap_bits (lib := TenSEAL.plain) Example.engine
    [0; 1; 0; 1]
  = Py.Ok 2.
Proof.
  assert (Hb1 : BloomInv.binary [0; 1; 1; 1])
    by (repeat constructor; auto).
  assert (Hb2 : BloomInv.binary [1; 1; 0; 1])
    by (repeat constructor; auto).
  destruct (engine_round_trip (lib := TenSEAL.plain)
              HEEngine.default Example.engine ([], [])
              [0; 1; 1; 1] [1; 1; 0; 1] [0; 1; 1; 1] [1; 1; 0; 1] [0; 1; 0; 1]
              EngineMore.plain_lawful eq_refl Hb1 Hb2 eq_refl eq_refl eq_refl
              eq_refl)
    as (_ & _ & _ & H & _).
  exact H.
Defined.

(** ** The parties *)

Module PartyMore.
Import BloomFilter BloomInv.

Lemma for_each_map {X Y S : Type} (f : X -> Y) (xs : list X)
    (body : Y -> S -> Py.result S) (s : S) :
  Py.for_each (map f xs) body s = Py.for_each xs (fun x => body (f x)) s.
Proof.
  revert s. induction xs as [|x xs IH]; intros s; simpl; [reflexivity|].
  destruct (body (f x) s); simpl; [apply IH|reflexivity].
Qed.

Lemma empty_wf (size hash_count : Z) :
  0 <= size -> wf (mk size hash_count (replicate (Z.to_nat size) 0) 0).
Proof. intros H. unfold wf. simpl. rewrite length_replicate. lia. Qed.

Lemma binary_zeros (n : nat) : binary (replicate n 0).
Proof. apply Forall_replicate. left. reflexivity. Qed.

(** The filter after the insertion of [strs] into an empty one. *)
Lemma built_filter (size hash_count : Z) (strs : list string) :
  0 < size ->
  exists bf,
    add_multiple (mk size hash_count (replicate (Z.to_nat size) 0) 0) strs
      = Py.Ok bf
    /\ BloomFilter.size bf = size
    /\ BloomFilter.hash_count bf = hash_count
    /\ item_count bf = Z.of_nat (length strs)
    /\ wf bf
    /\ binary (bit_array bf)
    /\ 0 <= count_set_bits bf <= Z.max 0 hash_count * Z.of_nat (length strs)
    /\ (forall s q,
          In s strs -> In q (positions bf s) -> bit_array bf !! q = Some 1)
    /\ forall s, In s strs -> contains bf s = Py.Ok true.
Proof.
  intros Hs.
  set (empty := mk size hash_count (replicate (Z.to_nat size) 0) 0).
  assert (Hwf : wf empty) by (apply empty_wf; lia).
  assert (Hok : 0 < BloomFilter.size empty \/ BloomFilter.hash_count empty <= 0)
    by (left; exact Hs).
  destruct (BloomFacts.add_multiple_ok strs empty Hwf Hok) as (bf & E & P).
  pose proof (BloomMore.add_multiple_eq strs empty Hwf Hok) as E'.
  rewrite E in E'. injection E' as E'.
  destruct P as [Psize Phc Pwf Pcount _ Pbin Psum].
  pose proof (binary_zeros (Z.to_nat size)) as Hz.
  assert (Hcells :
            forall s q, In s strs -> In q (positions bf s) ->
                        bit_array bf !! q = Some 1).
  { intros s q Hin Hq.
    rewrite (BloomFacts.positions_same_params bf empty s Psize Phc) in Hq.
    rewrite E'. cbn [bit_array].
    apply BloomFacts.set_all_sets.
    - apply in_flat_map. exists s. split; assumption.
    - apply (BloomFacts.positions_lt empty s); [exact Hs|exact Hwf|exact Hq]. }
  exists bf. split; [exact E|].
  split; [exact Psize|]. split; [exact Phc|].
  split; [rewrite Pcount; simpl; lia|].
  split; [exact Pwf|]. split; [apply Pbin; exact Hz|].
  split.
  - specialize (Psum Hz).
    assert (H0 : count_set_bits empty = 0)
      by (unfold count_set_bits; simpl; apply BloomFacts.sum_zeros).
    rewrite H0 in Psum. simpl in Psum. lia.
  - split; [exact Hcells|].
    intros s Hin. apply BloomFacts.contains_true.
    + exact Pwf.
    + rewrite Psize. exact Hs.
    + intros q Hq. apply (Hcells s q Hin Hq).
Qed.

Section Facts.
Context {lib : TenSEAL.Lib}.

Lemma create_bloom_filter_eq (p : Party.t) (size hash_count : Z) :
  0 < size ->
  Party.create_bloom_filter p size hash_count
  = (let* bf :=
       add_multiple (mk size hash_count (replicate (Z.to_nat size) 0) 0)
         (map IoC.__str__ (Party.ioc_list p)) in
     Py.Ok (Party.mk (Party.name p) (Party.he_engine p) (Party.ioc_list p)
              (Some bf) (Party.encrypted_bloom p))).
Proof.
  intros Hs. unfold Party.create_bloom_filter.
  rewrite (BloomFacts.init_ok size hash_count) by lia. cbn [Py.bind].
  unfold add_multiple. rewrite for_each_map. reflexivity.
Qed.

Lemma create_bloom_filter_built (p : Party.t) (size hash_count : Z) :
  0 < size ->
  exists p',
    Party.create_bloom_filter p size hash_count = Py.Ok p'
    /\ PartySpec.built (Party.name p) (Party.he_engine p) (Party.ioc_list p)
         size hash_count p'
    /\ Party.encrypted_bloom p' = Party.encrypted_bloom p.
Proof.
  intros Hs. rewrite (create_bloom_filter_eq p size hash_count Hs).
  destruct (built_filter size hash_count
              (map IoC.__str__ (Party.ioc_list p)) Hs)
    as (bf & E & H1 & H2 & H3 & H4 & H5 & H6 & _ & H8).
  rewrite E. cbn [Py.bind]. eexists. split; [reflexivity|].
  rewrite length_map in H3, H6.
  split; [|reflexivity].
  split; try reflexivity.
  exists bf. cbn [Party.bloom_filter].
  split; [reflexivity|]. split; [exact H1|]. split; [exact H2|].
  split; [exact H3|]. split; [exact H4|]. split; [exact H5|].
  split; [exact H6|].
  intros ioc Hin. apply H8. apply in_map. exact Hin.
Qed.


End Facts.
End PartyMore.

(** X18. For a positive [size], [create_bloom_filter] does not fail and
    leaves the party with a filter of the given parameters that has counted
    one insertion per listed indicator, holds 0 and 1 only, has at most
    [hash_count] set cells per indicator, and answers [True] for the string
    form of every listed indicator. Name, engine and list are unchanged, and
    so is an earlier ciphertext of the party. The filter is built from an
    empty one each time: a second call leaves the party as the first did. *)
Theorem create_bloom_filter_encodes_list {lib : TenSEAL.Lib}
    (p : Party.t) (size hash_count : Z) :
  0 < size ->
  exists p',
    Party.create_bloom_filter p size hash_count = Py.Ok p'
    /\ PartySpec.built (Party.name p) (Party.he_engine p) (Party.ioc_list p)
         size hash_count p'
    /\ Party.encrypted_bloom p' = Party.encrypted_bloom p
    /\ Party.create_bloom_filter p' size hash_count = Py.Ok p'.
Proof.
  intros Hs.
  destruct (PartyMore.create_bloom_filter_built p size hash_count Hs)
    as (p' & E & B & C).
  exists p'. split; [exact E|]. split; [exact B|]. split; [exact C|].
  rewrite (PartyMore.create_bloom_filter_eq p size hash_count Hs) in E.
  rewrite (PartyMore.create_bloom_filter_eq p' size hash_count Hs).
  destruct B as [Bn Be Bl _]. rewrite Bn, Be, Bl, C.
  destruct (BloomFilter.add_multiple _ _) as [bf|err]; [|discriminate].
  cbn [Py.bind] in *. injection E as <-. reflexivity.
Qed.

(** An instance of [create_bloom_filter_encodes_list]. *)
Lemma create_bloom_filter_encodes_list_witness :
  exists p',
    Party.create_bloom_filter (lib := TenSEAL.plain)
      (Party.set_ioc_list (Party.__init__ "ISP-A" HEEngine.default)
         Example.items1) 16 2
    = Py.Ok p'
    /\ Party.create_bloom_filter p' 16 2 = Py.Ok p'.
Proof.
  destruct (create_bloom_filter_encodes_list (lib := TenSEAL.plain)
              (Party.set_ioc_list (Party.__init__ "ISP-A" HEEngine.default)
                 Example.items1) 16 2 eq_refl)
    as (p' & E & _ & _ & E').
  exists p'. split; assumption.
Defined.



(** ** The protocol from setup to result *)

Module ProtocolMore.
Import BloomInv StoreSpec.





Section Facts.
Context {lib : TenSEAL.Lib}.


(** What [setup_parties] leaves, once the keys are there. *)
Lemma setup_parties_eq (m k : Z) (n1 n2 : string) (l1 l2 : list IoC.t)
    (e : HEEngine.t) (keys : TenSEAL.bytes * TenSEAL.bytes) :
  HEEngine.generate_keys HEEngine.default = Py.Ok (e, keys) ->
  TwoPartyProtocol.setup_parties (TwoPartyProtocol.__init__ m k) n1 n2 l1 l2
  = (let* p1 :=
       Party.create_bloom_filter
         (Party.set_ioc_list (Party.__init__ n1 e) l1) m k in
     let* p2 :=
       Party.create_bloom_filter
         (Party.set_ioc_list (Party.__init__ n2 e) l2) m k in
     Py.Ok (TwoPartyProtocol.mk m k e (Some p1) (Some p2))).
Proof.
  intros H. unfold TwoPartyProtocol.setup_parties.
  cbn [TwoPartyProtocol.__init__ TwoPartyProtocol.he_engine
       TwoPartyProtocol.bloom_size TwoPartyProtocol.hash_count].
  rewrite H. reflexivity.
Qed.

End Facts.
End ProtocolMore.

Module RunFacts.
Import BloomInv StoreSpec.


Section Facts.
Context {lib : TenSEAL.Lib}.


End Facts.


End RunFacts.

(** X20. [execute_protocol] before [setup_parties] raises a [ValueError].
    [setup_parties] fails the way key generation fails. With keys generated:
    a negative [bloom_size] gives a [ValueError]; [bloom_size = 0] with at
    least one hash round and a non-empty first list gives a
    [ZeroDivisionError]; a positive [bloom_size] always succeeds, and leaves
    two parties that share the protocol's engine, carry the given names and
    lists, have no ciphertext yet, and hold each a filter of the protocol's
    parameters that answers [True] for every indicator of the party's
    list. *)
Theorem setup_parties_outcome {lib : TenSEAL.Lib}
    (m k : Z) (n1 n2 : string) (l1 l2 : list IoC.t) :
  let setup :=
    TwoPartyProtocol.setup_parties (TwoPartyProtocol.__init__ m k)
      n1 n2 l1 l2 in
  TwoPartyProtocol.execute_protocol (TwoPartyProtocol.__init__ m k)
    = Py.Raise Py.ValueError
  /\ (forall err,
        HEEngine.generate_keys HEEngine.default = Py.Raise err ->
        setup = Py.Raise err)
  /\ (forall e keys,
        HEEngine.generate_keys HEEngine.default = Py.Ok (e, keys) ->
        (m < 0 -> setup = Py.Raise Py.ValueError)
        /\ (m = 0 -> 0 < k -> l1 <> [] ->
            setup = Py.Raise Py.ZeroDivisionError)
        /\ (0 < m ->
            exists p1 p2,
              setup = Py.Ok (TwoPartyProtocol.mk m k e (Some p1) (Some p2))
              /\ PartySpec.built n1 e l1 m k p1
              /\ PartySpec.built n2 e l2 m k p2
              /\ Party.encrypted_bloom p1 = None
              /\ Party.encrypted_bloom p2 = None)).
Proof.
  intros setup. split; [reflexivity|]. split.
  - intros err G. unfold setup, TwoPartyProtocol.setup_parties.
    cbn [TwoPartyProtocol.__init__ TwoPartyProtocol.he_engine].
    rewrite G. reflexivity.
  - intros e keys G. unfold setup.
    rewrite (ProtocolMore.setup_parties_eq m k n1 n2 l1 l2 e keys G).
    split; [|split].
    + intros Hm. unfold Party.create_bloom_filter, BloomFilter.__init__,
        Np.zeros.
      destruct (Z.ltb_spec m 0) as [_|Hge]; [reflexivity|lia].
    + intros -> Hk Hne. unfold Party.create_bloom_filter.
      rewrite (BloomFacts.init_ok 0 k) by lia. cbn [Py.bind].
      cbn [Party.set_ioc_list Party.ioc_list].
      destruct l1 as [|i l]; [congruence|].
      cbn [Py.for_each].
      rewrite BloomFacts.add_raises_without_cells;
        [reflexivity|reflexivity|exact Hk].
    + intros Hm.
      destruct (PartyMore.create_bloom_filter_built
                  (Party.set_ioc_list (Party.__init__ n1 e) l1) m k Hm)
        as (p1 & E1 & B1 & C1).
      destruct (PartyMore.create_bloom_filter_built
                  (Party.set_ioc_list (Party.__init__ n2 e) l2) m k Hm)
        as (p2 & E2 & B2 & C2).
      rewrite E1, E2. cbn [Py.bind].
      exists p1, p2. split; [reflexivity|].
      split; [exact B1|]. split; [exact B2|]. split; [exact C1|exact C2].
Qed.



(** ** The check in the clear and the simulation *)

Module VerifyFacts.
#[local] Set Warnings "-clear-no-such-hyp".

Lemma size_list_to_set_le (l : list string) :
  (size (list_to_set l : gset string) <= length l)%nat.
Proof.
  induction l as [|x l IH].
  - change (size (∅ : gset string) <= 0)%nat. rewrite size_empty. lia.
  - change (size ({[x]} ∪ list_to_set l : gset string) <= S (length l))%nat.
    rewrite size_union_alt, size_singleton.
    assert (Hsub : (size (list_to_set l ∖ {[x]} : gset string)
                    <= size (list_to_set l : gset string))%nat)
      by (apply subseteq_size; set_solver).
    lia.
Qed.

Lemma size_inclusion_exclusion (X Y : gset string) :
  (size (X ∩ Y) + size (X ∪ Y) = size X + size Y)%nat.
Proof.
  rewrite (@size_union_alt _ _ _ _ _ _ _ _ _ _ gset_fin_set X Y).
  rewrite (@size_difference_alt _ _ _ _ _ _ _ _ _ _ gset_fin_set Y X).
  assert (Hc : Y ∩ X = X ∩ Y) by set_solver. rewrite Hc.
  assert (Hle : (size (X ∩ Y) <= size Y)%nat)
    by (apply subseteq_size; set_solver).
  lia.
Qed.

Lemma size_intersection_le (X Y : gset string) :
  (size (X ∩ Y) <= size X)%nat /\ (size (X ∩ Y) <= size Y)%nat.
Proof. split; apply subseteq_size; set_solver. Qed.

Lemma same_strings_same_set (l l' : list string) :
  (forall s, In s l <-> In s l') ->
  (list_to_set l : gset string) = list_to_set l'.
Proof.
  intros H. apply set_eq. intros s.
  rewrite !elem_of_list_to_set, !list_elem_of_In. apply H.
Qed.

Lemma size_zero_disjoint (X Y : gset string) :
  size (X ∩ Y) = 0%nat <-> (forall s, s ∈ X -> s ∈ Y -> False).
Proof.
  rewrite size_empty_iff. set_solver.
Qed.

End VerifyFacts.

(** X22. [verify_correctness] counts distinct string forms. Its five
    entries are four integers and one real number: the sizes [set1_size],
    [set2_size] of the two sets of string forms, [actual_overlap] and
    [union_size] with [actual_overlap + union_size = set1_size + set2_size],
    [actual_overlap] at most the smaller size, each size at most the length
    of its list, and [actual_jaccard_similarity] in [0, 1]. [actual_overlap]
    is 0 exactly when no indicator of the first list has the string form of
    one of the second. The result holds no string and no list, and depends
    neither on the protocol object nor on order or repetition in the lists:
    lists with the same string forms give the same result. *)
Theorem verify_correctness_counts {lib : TenSEAL.Lib}
    (self : TwoPartyProtocol.t) (l1 l2 : list IoC.t) :
  exists a s1 s2 u j,
    TwoPartyProtocol.verify_correctness self l1 l2
    = Py.Dict
        [("actual_overlap", Py.Int a);
         ("actual_jaccard_similarity", Py.Float j);
         ("set1_size", Py.Int s1);
         ("set2_size", Py.Int s2);
         ("union_size", Py.Int u)]%string
    /\ a + u = s1 + s2
    /\ 0 <= a <= Z.min s1 s2
    /\ s1 <= Z.of_nat (length l1)
    /\ s2 <= Z.of_nat (length l2)
    /\ (0 <= j <= 1)%R
    /\ (a = 0 <->
        forall i1 i2,
          In i1 l1 -> In i2 l2 -> IoC.__str__ i1 <> IoC.__str__ i2)
    /\ forall (self' : TwoPartyProtocol.t) (l1' l2' : list IoC.t),
         (forall s, In s (map IoC.__str__ l1) <-> In s (map IoC.__str__ l1')) ->
         (forall s, In s (map IoC.__str__ l2) <-> In s (map IoC.__str__ l2')) ->
         TwoPartyProtocol.verify_correctness self' l1' l2'
         = TwoPartyProtocol.verify_correctness self l1 l2.
Proof.
  unfold TwoPartyProtocol.verify_correctness. cbv zeta.
  set (X := (list_to_set (map IoC.__str__ l1) : gset string)).
  set (Y := (list_to_set (map IoC.__str__ l2) : gset string)).
  pose proof (VerifyFacts.size_inclusion_exclusion X Y) as Hie.
  destruct (VerifyFacts.size_intersection_le X Y) as [HaX HaY].
  pose proof (VerifyFacts.size_list_to_set_le (map IoC.__str__ l1)) as H1.
  pose proof (VerifyFacts.size_list_to_set_le (map IoC.__str__ l2)) as H2.
  rewrite length_map in H1, H2. fold X in H1. fold Y in H2.
  exists (Z.of_nat (size (X ∩ Y))), (Z.of_nat (size X)), (Z.of_nat (size Y)),
    (Z.of_nat (size (X ∪ Y))).
  eexists. split; [reflexivity|].
  split; [lia|]. split; [lia|]. split; [lia|]. split; [lia|].
  split; [|split].
  - destruct (Z.ltb_spec 0 (Z.of_nat (size (X ∪ Y)))) as [Hu|Hu]; [|lra].
    assert (Hau : Z.of_nat (size (X ∩ Y)) <= Z.of_nat (size (X ∪ Y))) by lia.
    apply IZR_lt in Hu. apply IZR_le in Hau.
    assert (Ha : (0 <= IZR (Z.of_nat (size (X ∩ Y))))%R)
      by (apply IZR_le; lia).
    split.
    + apply Rmult_le_pos; [exact Ha|].
      apply Rlt_le, Rinv_0_lt_compat. exact Hu.
    + apply Rmult_le_reg_r with (IZR (Z.of_nat (size (X ∪ Y)))); [exact Hu|].
      unfold Rdiv. rewrite Rmult_assoc, Rinv_l by lra. lra.
  - assert (Hz : Z.of_nat (size (X ∩ Y)) = 0 <-> size (X ∩ Y) = 0%nat) by lia.
    rewrite Hz, VerifyFacts.size_zero_disjoint. unfold X, Y. split.
    + intros H i1 i2 Hi1 Hi2 Heq. apply (H (IoC.__str__ i1)).
      * rewrite elem_of_list_to_set, list_elem_of_In. apply in_map. exact Hi1.
      * rewrite Heq, elem_of_list_to_set, list_elem_of_In.
        apply in_map. exact Hi2.
    + intros H s Hs1 Hs2.
      rewrite elem_of_list_to_set, list_elem_of_In, in_map_iff in Hs1, Hs2.
      destruct Hs1 as (i1 & E1 & Hi1). destruct Hs2 as (i2 & E2 & Hi2).
      apply (H i1 i2 Hi1 Hi2). congruence.
  - intros self' l1' l2' Hs1 Hs2. unfold X, Y.
    rewrite <- (VerifyFacts.same_strings_same_set _ _ Hs1).
    rewrite <- (VerifyFacts.same_strings_same_set _ _ Hs2).
    reflexivity.
Qed.

Module SimulationFacts.
Section Facts.
Context {lib : TenSEAL.Lib}.

Lemma create_bloom_filter_name (p p' : Party.t) (size hash_count : Z) :
  Party.create_bloom_filter p size hash_count = Py.Ok p' ->
  Party.name p' = Party.name p.
Proof.
  unfold Party.create_bloom_filter. intros H.
  apply ProtocolFacts.bind_ok in H. destruct H as (bf0 & _ & H).
  apply ProtocolFacts.bind_ok in H. destruct H as (bf & _ & H).
  injection H as <-. reflexivity.
Qed.

Lemma setup_parties_names (self proto : TwoPartyProtocol.t)
    (n1 n2 : string) (l1 l2 : list IoC.t) :
  TwoPartyProtocol.setup_parties self n1 n2 l1 l2 = Py.Ok proto ->
  TwoPartyProtocol.bloom_size proto = TwoPartyProtocol.bloom_size self
  /\ TwoPartyProtocol.hash_count proto = TwoPartyProtocol.hash_count self
  /\ exists p1 p2,
       TwoPartyProtocol.party1 proto = Some p1
       /\ TwoPartyProtocol.party2 proto = Some p2
       /\ Party.name p1 = n1 /\ Party.name p2 = n2.
Proof.
  unfold TwoPartyProtocol.setup_parties. intros H.
  apply ProtocolFacts.bind_ok in H. destruct H as (keys & _ & H).
  apply ProtocolFacts.bind_ok in H. destruct H as (p1 & E1 & H).
  apply ProtocolFacts.bind_ok in H. destruct H as (p2 & E2 & H).
  injection H as <-. split; [reflexivity|]. split; [reflexivity|].
  exists p1, p2. split; [reflexivity|]. split; [reflexivity|].
  rewrite (create_bloom_filter_name _ _ _ _ E1).
  rewrite (create_bloom_filter_name _ _ _ _ E2).
  split; reflexivity.
Qed.

End Facts.

Lemma simulation_setup :
  TwoPartyProtocol.setup_parties (lib := TenSEAL.plain)
    (TwoPartyProtocol.__init__ 16 2) "ISP-A" "ISP-B"
    Example.items1 Example.items2
  = Py.Ok
      (TwoPartyProtocol.mk 16 2 Example.engine
         (Some (Party.mk "ISP-A" Example.engine Example.items1
                  (Some (BloomFilter.mk 16 2
                           [0; 0; 0; 0; 0; 0; 1; 1; 0; 0; 0; 0; 1; 1; 0; 0]
                           2))
                  None))
         (Some (Party.mk "ISP-B" Example.engine Example.items2
                  (Some (BloomFilter.mk 16 2
                           [0; 0; 0; 0; 0; 0; 1; 0; 0; 1; 1; 0; 0; 1; 0; 0]
                           2))
                  None))).
Proof. vm_compute. reflexivity. Qed.

Lemma example_run :
  exists base,
    TwoPartyProtocol.run_simulation (lib := TenSEAL.plain)
      Example.items1 Example.items2 16 2 false
    = Py.Ok base.
Proof.
  unfold TwoPartyProtocol.run_simulation. rewrite simulation_setup.
  cbn [Py.bind]. eexists.
  lazy -[ln exp Int_part Rle_dec Rlt_dec Rdiv Rmult Rplus Rminus Ropp Rinv IZR
         powerRZ pow Py.int_of_float Py.max0].
  reflexivity.
Qed.

End SimulationFacts.

(** X23. When [run_simulation] without verification returns a result,
    [run_simulation] with verification returns one too, and it is that
    result with two more entries. [verification] is what
    [verify_correctness] returns for the two lists. [accuracy] repeats the
    estimated overlap of the protocol and the actual overlap of the
    verification, with [error] their absolute difference and
    [error_percentage] the integer 0 when the actual overlap is 0, and
    [error / actual_overlap * 100] otherwise. Every other entry is as in the
    result without verification. The result still holds no list, and its
    only strings are the two fixed party names. *)
Theorem run_simulation_adds_counts_only {lib : TenSEAL.Lib}
    (l1 l2 : list IoC.t) (m k : Z) (base : Py.value) :
  TwoPartyProtocol.run_simulation l1 l2 m k false = Py.Ok base ->
  exists result estimated actual,
    TwoPartyProtocol.run_simulation l1 l2 m k true = Py.Ok result
    /\ (let* stats := Py.getitem base "overlap_statistics" in
        Py.getitem stats "estimated_item_overlap")
       = Py.Ok (Py.Int estimated)
    /\ Py.getitem
         (TwoPartyProtocol.verify_correctness (TwoPartyProtocol.__init__ m k)
            l1 l2) "actual_overlap"
       = Py.Ok (Py.Int actual)
    /\ Py.getitem result "verification"
       = Py.Ok (TwoPartyProtocol.verify_correctness
                  (TwoPartyProtocol.__init__ m k) l1 l2)
    /\ Py.getitem result "accuracy"
       = Py.Ok (Py.Dict
           [("estimated_overlap", Py.Int estimated);
            ("actual_overlap", Py.Int actual);
            ("error", Py.Int (Z.abs (estimated - actual)));
            ("error_percentage",
             if (0 <? actual)%Z
             then Py.Float (IZR (Z.abs (estimated - actual))
                            / IZR actual * 100)%R
             else Py.Int 0%Z)]%string)
    /\ (forall key,
          key <> "verification"%string -> key <> "accuracy"%string ->
          Py.getitem result key = Py.getitem base key)
    /\ Py.has_list result = false
    /\ Py.strings result = ["ISP-A"; "ISP-B"]%string.
Proof.
  unfold TwoPartyProtocol.run_simulation. intros H.
  apply ProtocolFacts.bind_ok in H. destruct H as (proto & Hsetup & H).
  apply ProtocolFacts.bind_ok in H. destruct H as ([proto' res] & Hrun & H).
  cbn [fst snd] in H. injection H as <-.
  rewrite Hsetup. cbn [Py.bind]. rewrite Hrun. cbn [Py.bind fst snd].
  destruct (SimulationFacts.setup_parties_names _ _ _ _ _ _ Hsetup)
    as (_ & _ & q1 & q2 & Q1 & Q2 & N1 & N2).
  destruct (ProtocolFacts.execute_protocol_result _ _ _ Hrun)
    as (p1 & p2 & bf1 & bf2 & est & ob & P1 & P2 & _ & _ & ->).
  rewrite Q1 in P1. injection P1 as <-.
  rewrite Q2 in P2. injection P2 as <-.
  rewrite N1, N2.
  unfold TwoPartyProtocol.verify_correctness. cbv zeta.
  set (X := (list_to_set (map IoC.__str__ l1) : gset string)).
  set (Y := (list_to_set (map IoC.__str__ l2) : gset string)).
  set (a := Z.of_nat (size (X ∩ Y))).
  set (u := Z.of_nat (size (X ∪ Y))).
  set (s1 := Z.of_nat (size X)).
  set (s2 := Z.of_nat (size Y)).
  set (j := if 0 <? u then (IZR a / IZR u)%R else 0%R).
  set (jac := OverlapCalculator.calculate_jaccard_similarity _ _ _).
  clearbody a u s1 s2 j jac.
  unfold ProtocolResult.make.
  cbn [Py.setitem Py.getitem Py.assoc Py.assoc_set Py.bind Py.as_int
       String.eqb Ascii.eqb Bool.eqb].
  eexists _, est, a.
  split; [reflexivity|]. split; [reflexivity|]. split; [reflexivity|].
  split; [reflexivity|]. split; [reflexivity|].
  split; [|split].
  - intros key Hv Ha. unfold Py.getitem. cbn [Py.assoc].
    apply String.eqb_neq in Hv, Ha. rewrite Hv, Ha. reflexivity.
  - destruct (0 <? a); reflexivity.
  - destruct (0 <? a); reflexivity.
Qed.

(** An instance of [run_simulation_adds_counts_only]. *)
Lemma run_simulation_adds_counts_only_witness :
  exists result,
    TwoPartyProtocol.run_simulation (lib := TenSEAL.plain)
      Example.items1 Example.items2 16 2 true
    = Py.Ok result
    /\ Py.has_list result = false
    /\ Py.strings result = ["ISP-A"; "ISP-B"]%string.
Proof.
  destruct SimulationFacts.example_run as (base & Hbase).
  destruct (run_simulation_adds_counts_only
              Example.items1 Example.items2 16 2 base Hbase)
    as (result & est & a & Hrun & _ & _ & _ & _ & _ & Hl & Hs).
  exists result. split; [exact Hrun|]. split; [exact Hl|exact Hs].
Defined.
